(** * Arkose Labs / Auth0 edge worker: a shallow embedding and its properties

    The development follows [cdn-examples/server/auth0/index.js]: the
    configuration parsers, the cookie extractor, the platform health checker,
    the token verifier with its retry chain, the script injector and the
    request handler [fetch].

    JavaScript strings are modelled by [string]; an index counts characters
    of that string (UTF-16 code units in the source).  Integral numbers are
    modelled by [Z]. *)

From Stdlib Require Import String Ascii List ZArith Lia Bool.
From Stdlib Require Import Strings.Byte.
From Stdlib Require Import DecimalString.
From Stdlib Require QArith_base.
From Stdlib Require DecimalPos.
Import ListNotations.

Local Open Scope string_scope.
Local Open Scope Z_scope.

Set Implicit Arguments.
Set Warnings "-register-all".

(* ------------------------------------------------------------------ *)
(** ** JavaScript values *)

Module JS.

(** The double quote character, written by its code. *)
Definition dquote : string := String (ascii_of_nat 34) EmptyString.

(** What [JSON.parse] can produce.  An object is its property table; a
    number is kept as the rational the text denotes. *)
Inductive JSON : Type :=
| JNull
| JBool (b : bool)
| JNumber (q : QArith_base.Q)
| JString (s : string)
| JArray (items : list JSON)
| JObject (fields : list (string * JSON)).

(** A value as a variable holds it: [undefined], or a JSON-like value. *)
Inductive Value : Type :=
| Undefined
| Defined (j : JSON).

Definition Null : Value := Defined JNull.
Definition Str (s : string) : Value := Defined (JString s).

(** ToBoolean. *)
Definition truthy (v : Value) : bool :=
  match v with
  | Undefined => false
  | Defined JNull => false
  | Defined (JBool b) => b
  | Defined (JNumber q) => negb (QArith_base.Qnum q =? 0)
  | Defined (JString s) => negb (String.eqb s EmptyString)
  | Defined (JArray _) => true
  | Defined (JObject _) => true
  end.

(** [v === 'text'] for a string literal on the right. *)
Definition strict_eq_string (v : Value) (text : string) : bool :=
  match v with
  | Defined (JString s) => String.eqb s text
  | _ => false
  end.

Fixpoint lookup_field (key : string) (fields : list (string * JSON)) : Value :=
  match fields with
  | [] => Undefined
  | (k, j) :: rest => if String.eqb k key then Defined j else lookup_field key rest
  end.

(** Property read [v.key] for a key that no prototype defines: [None] is
    the TypeError raised on [undefined] and [null]. *)
Definition get_property (v : Value) (key : string) : option Value :=
  match v with
  | Undefined => None
  | Defined JNull => None
  | Defined (JObject fields) => Some (lookup_field key fields)
  | Defined _ => Some Undefined
  end.

(** [String.prototype.includes]. *)
Definition includes (s sub : string) : bool :=
  match String.index 0 sub s with
  | Some _ => true
  | None => false
  end.

(** [String.prototype.indexOf(needle, from)], for a non-empty needle. *)
Definition indexOf (s needle : string) (from : Z) : Z :=
  match String.index (Z.to_nat from) needle s with
  | Some i => Z.of_nat i
  | None => -1
  end.

(** [String.prototype.search] with a pattern that holds no regular
    expression operator: the index of its first occurrence, or -1. *)
Definition search (s pattern : string) : Z := indexOf s pattern 0.

(** [String.prototype.substring(start, end)]: both ends are clamped to
    [0, length] and swapped when out of order. *)
Definition substring (s : string) (start finish : Z) : string :=
  let len := Z.of_nat (String.length s) in
  let a := Z.min (Z.max start 0) len in
  let b := Z.min (Z.max finish 0) len in
  let from := Z.min a b in
  let to := Z.max a b in
  String.substring (Z.to_nat from) (Z.to_nat (to - from)) s.

Fixpoint rev_string (acc s : string) : string :=
  match s with
  | EmptyString => acc
  | String c s' => rev_string (String c acc) s'
  end.

(** [String.prototype.split(sep)] for a non-empty separator.  [skip] counts
    the characters of a separator just matched that are still to be passed;
    [cur] is the current piece, reversed. *)
Fixpoint split_go (sep : string) (skip : nat) (cur s : string) : list string :=
  match s with
  | EmptyString => [rev_string EmptyString cur]
  | String c s' =>
      match skip with
      | S k => split_go sep k cur s'
      | O =>
          if String.prefix sep s
          then rev_string EmptyString cur
                 :: split_go sep (Nat.pred (String.length sep)) EmptyString s'
          else split_go sep O (String c cur) s'
      end
  end.

Definition split (s sep : string) : list string :=
  split_go sep O EmptyString s.

(** Array destructuring [[, value] = items]. *)
Definition second (items : list string) : Value :=
  match items with
  | _ :: v :: _ => Str v
  | _ => Undefined
  end.

Definition lower_char (c : ascii) : ascii :=
  let n := nat_of_ascii c in
  if (65 <=? n)%nat && (n <=? 90)%nat then ascii_of_nat (n + 32) else c.

(** [String.prototype.toLowerCase] on the characters A to Z. *)
Fixpoint toLowerCase (s : string) : string :=
  match s with
  | EmptyString => EmptyString
  | String c s' => String (lower_char c) (toLowerCase s')
  end.

(** [String(value)] for a value that is a string or [undefined]. *)
Definition String_of (v : option string) : string :=
  match v with
  | Some s => s
  | None => "undefined"
  end.

Definition is_space (c : ascii) : bool :=
  let n := nat_of_ascii c in
  ((9 <=? n)%nat && (n <=? 13)%nat) || (n =? 32)%nat || (n =? 160)%nat.

Definition is_digit (c : ascii) : bool :=
  let n := nat_of_ascii c in (48 <=? n)%nat && (n <=? 57)%nat.

Fixpoint skip_spaces (s : string) : string :=
  match s with
  | String c s' => if is_space c then skip_spaces s' else s
  | EmptyString => s
  end.

(** The longest prefix of decimal digits, as a number; [None] when the
    first character is not a digit. *)
Fixpoint digits (acc : option Z) (s : string) : option Z :=
  match s with
  | String c s' =>
      if is_digit c
      then digits (Some (10 * match acc with Some a => a | None => 0 end
                         + Z.of_nat (nat_of_ascii c - 48))) s'
      else acc
  | EmptyString => acc
  end.

(** [parseInt(value, 10)]; [None] is NaN. *)
Definition parseInt10 (v : option string) : option Z :=
  match skip_spaces (String_of v) with
  | String "-" rest => option_map Z.opp (digits None rest)
  | String "+" rest => digits None rest
  | s => digits None s
  end.

(** A number in a template literal. *)
Definition number_to_string (z : Z) : string :=
  NilZero.string_of_int (Z.to_int z).

Definition bool_to_string (b : bool) : string :=
  if b then "true" else "false".

End JS.

(* ------------------------------------------------------------------ *)
(** ** Configuration parsers and the cookie extractor *)

(** [parseNumber]: the parsed integer, 0 when [parseInt] gives NaN. *)
Definition parseNumber (value : option string) : Z :=
  match JS.parseInt10 value with
  | None => 0
  | Some n => n
  end.

(** [parseBoolean]. *)
Definition parseBoolean (value : option string) : bool :=
  String.eqb (JS.toLowerCase (JS.String_of value)) "true".

(** [getCookie]: [cookieString] is [None] when the request has no Cookie
    header ([headers.get] gives null). *)
Definition getCookie (cookieString : option string) (cookieKey : string) : JS.Value :=
  match cookieString with
  | Some cs =>
      if JS.truthy (JS.Str cs) then
        let allCookies := JS.split cs "; " in
        match find (fun cookie => JS.includes cookie cookieKey) allCookies with
        | Some targetCookie =>
            if JS.truthy (JS.Str targetCookie)
            then JS.second (JS.split targetCookie (cookieKey ++ "="))
            else JS.Null
        | None => JS.Null
        end
      else JS.Null
  | None => JS.Null
  end.

(* ------------------------------------------------------------------ *)
(** ** The platform: network, clock, randomness and cryptography *)

(** What a call to an endpoint that answers JSON comes to: [fetch] rejects,
    or it resolves and [json()] rejects, or [json()] gives a value. *)
Inductive Reply : Type :=
| Rejects
| Unparseable
| Parsed (j : JS.JSON).

Record Request : Type := {
  method : string;
  url : string;
  cookieHeader : option string
}.

Record Response : Type := {
  status : Z;
  headers : list (string * string);
  body : string
}.

Inductive OriginReply : Type :=
| OriginRejects
| OriginResponds (r : Response).

(** Outbound calls and reads of the environment, most recent first. *)
Inductive Event : Type :=
| VerifyPOST (endpoint private_key : string) (session_token : JS.Value)
| StatusGET (endpoint : string)
| OriginFetch (request : Request)
| ClockRead
| RandomBytes.

Definition Log : Type := list Event.

Definition verifyCalls (log : Log) : nat :=
  List.length (filter (fun e => match e with VerifyPOST _ _ _ => true | _ => false end) log).
Definition statusCalls (log : Log) : nat :=
  List.length (filter (fun e => match e with StatusGET _ => true | _ => false end) log).
Definition originCalls (log : Log) : nat :=
  List.length (filter (fun e => match e with OriginFetch _ => true | _ => false end) log).
Definition clockReads (log : Log) : nat :=
  List.length (filter (fun e => match e with ClockRead => true | _ => false end) log).
Definition randomReads (log : Log) : nat :=
  List.length (filter (fun e => match e with RandomBytes => true | _ => false end) log).

(** The world one handler invocation runs in.  The n-th call of a kind gets
    the n-th answer of that kind; the cryptographic primitives and the
    base64 codec are functions of their arguments. *)
Record Platform : Type := {
  verify_endpoint : nat -> Reply;
  status_endpoint : nat -> Reply;
  origin : nat -> OriginReply;
  clock : nat -> Z;
  getRandomValues : nat -> list byte;
  aes_gcm_encrypt : list byte -> list byte -> string -> option (list byte);
  base64 : list byte -> string;
  base64_decode : string -> list byte
}.

(* ------------------------------------------------------------------ *)
(** ** Computations: a log of events, exceptions, and fuel *)

Inductive Error : Type :=
| TypeError
| NetworkError
| SyntaxError
| OperationError.

(** [OutOfFuel] is not an exception: no handler catches it.  It marks a
    retry chain that is still going when the fuel is spent. *)
Inductive Res (A : Type) : Type :=
| Ret (a : A)
| Throw (e : Error)
| OutOfFuel.

Arguments Throw {A} e.
Arguments OutOfFuel {A}.

Definition M (A : Type) : Type := Log -> Res A * Log.

Definition ret {A : Type} (a : A) : M A := fun log => (Ret a, log).

Definition throw {A : Type} (e : Error) : M A := fun log => (Throw e, log).

Definition bind {A B : Type} (m : M A) (k : A -> M B) : M B :=
  fun log =>
    match m log with
    | (Ret a, log') => k a log'
    | (Throw e, log') => (Throw e, log')
    | (OutOfFuel, log') => (OutOfFuel, log')
    end.

Definition try_catch {A : Type} (m : M A) (handler : Error -> M A) : M A :=
  fun log =>
    match m log with
    | (Throw e, log') => handler e log'
    | r => r
    end.

Declare Scope worker_scope.
Delimit Scope worker_scope with worker.
Notation "x <- m ;; k" := (bind m (fun x => k))
  (at level 61, m at next level, right associativity) : worker_scope.
Local Open Scope worker_scope.

(** A property read that raises TypeError on [undefined] and [null]. *)
Definition get (v : JS.Value) (key : string) : M JS.Value :=
  match JS.get_property v key with
  | Some x => ret x
  | None => throw TypeError
  end.

(** [response.json()]. *)
Definition json (r : Reply) : M JS.Value :=
  match r with
  | Parsed j => ret (JS.Defined j)
  | _ => throw SyntaxError
  end.

Record VerifyStatus : Type := {
  verified : bool;
  arkoseStatus : bool
}.

Definition status_url : string := "https://status.arkoselabs.com/api/v2/status.json".

Definition verify_url (verifySubdomain : string) : string :=
  "https://" ++ verifySubdomain ++ ".arkoselabs.com/api/v4/verify/".

Section Worker.

Variable P : Platform.

(** The global [fetch] on the status endpoint. *)
Definition fetch_status : M Reply :=
  fun log =>
    let reply := status_endpoint P (statusCalls log) in
    match reply with
    | Rejects => (Throw NetworkError, StatusGET status_url :: log)
    | _ => (Ret reply, StatusGET status_url :: log)
    end.

(** The global [fetch] on the verify endpoint, method POST, with the body
    [JSON.stringify({private_key, session_token})]. *)
Definition fetch_verify (verifySubdomain privateKey : string) (token : JS.Value) : M Reply :=
  fun log =>
    let reply := verify_endpoint P (verifyCalls log) in
    let log' := VerifyPOST (verify_url verifySubdomain) privateKey token :: log in
    match reply with
    | Rejects => (Throw NetworkError, log')
    | _ => (Ret reply, log')
    end.

(** The global [fetch] on the incoming request: the origin's answer.  A
    body that cannot be read is counted as a rejected fetch. *)
Definition fetch_origin (request : Request) : M Response :=
  fun log =>
    match origin P (originCalls log) with
    | OriginRejects => (Throw NetworkError, OriginFetch request :: log)
    | OriginResponds r => (Ret r, OriginFetch request :: log)
    end.

(** [checkArkoseStatus]. *)
Definition checkArkoseStatus : M bool :=
  try_catch
    (healthResponse <- fetch_status ;;
     healthJson <- json healthResponse ;;
     st <- get healthJson "status" ;;
     indicator <- get st "indicator" ;;
     ret (negb (JS.strict_eq_string indicator "critical")))
    (fun _ => ret false).

(** [verifyArkoseToken]; [fuel] bounds the depth of the retry chain. *)
Fixpoint verifyArkoseToken (fuel : nat) (token : JS.Value)
    (privateKey verifySubdomain : string)
    (verifyMaxRetryCount currentRetry : Z) : M VerifyStatus :=
  match fuel with
  | O => fun log => (OutOfFuel, log)
  | S fuel' =>
      let verified := false in
      let arkoseStatus := true in
      try_catch
        (response <- fetch_verify verifySubdomain privateKey token ;;
         data <- json response ;;
         session_details <- get data "session_details" ;;
         verified <-
           (if JS.truthy session_details
            then solved <- get session_details "solved" ;;
                 ret (if JS.truthy solved then true else verified)
            else ret verified) ;;
         ret {| verified := verified; arkoseStatus := arkoseStatus |})
        (fun _ =>
           arkoseStatus <- checkArkoseStatus ;;
           if arkoseStatus then
             if currentRetry =? verifyMaxRetryCount
             then ret {| verified := verified; arkoseStatus := arkoseStatus |}
             else verifyArkoseToken fuel' token privateKey verifySubdomain
                    verifyMaxRetryCount (currentRetry + 1)
           else ret {| verified := verified; arkoseStatus := arkoseStatus |})
  end.

End Worker.

(* ------------------------------------------------------------------ *)
(** ** Environment and the constants of the handler *)

Module Env.

(** The Worker's environment variables; [None] is a variable that is not
    set.  The two keys, the error url and the secret key carry no default
    in the handler and are read as set, as the header of the source asks:
    [Buffer.from] on a string does not throw. *)
Record t : Type := {
  publicKey : string;
  privateKey : string;
  clientSubdomain : option string;
  verifySubdomain : option string;
  errorUrl : string;
  arkoseCookieName : option string;
  arkoseErrorCookieName : option string;
  arkoseCookieLife : option string;
  failOpen : option string;
  verifyMaxRetryCount : option string;
  scriptMaxRetryCount : option string;
  DX : option string;
  tokenEnforcement : option string;
  secretKeyBase64 : string
}.

End Env.

(** A destructuring default, [const { name = fallback } = env]. *)
Definition or_default (v : option string) (fallback : string) : string :=
  match v with
  | Some s => s
  | None => fallback
  end.

(** The constants at the head of [fetch]. *)
Record Config : Type := {
  publicKey : string;
  privateKey : string;
  clientSubdomain : string;
  verifySubdomain : string;
  errorUrl : string;
  arkoseCookieName : string;
  arkoseErrorCookieName : string;
  arkoseCookieLife : Z;
  failOpen : bool;
  verifyMaxRetryCount : Z;
  scriptMaxRetryCount : Z;
  usingDX : bool;
  tokenEnforcement : bool;
  secretKeyBase64 : string;
  secretKey : list byte
}.

Definition configure (P : Platform) (env : Env.t) : Config := {|
  publicKey := Env.publicKey env;
  privateKey := Env.privateKey env;
  clientSubdomain := or_default (Env.clientSubdomain env) "client-api";
  verifySubdomain := or_default (Env.verifySubdomain env) "verify-api";
  errorUrl := Env.errorUrl env;
  arkoseCookieName := or_default (Env.arkoseCookieName env) "arkoseToken";
  arkoseErrorCookieName := or_default (Env.arkoseErrorCookieName env) "arkoseError";
  arkoseCookieLife := parseNumber (Env.arkoseCookieLife env);
  failOpen := parseBoolean (Env.failOpen env);
  verifyMaxRetryCount := parseNumber (Env.verifyMaxRetryCount env);
  scriptMaxRetryCount := parseNumber (Env.scriptMaxRetryCount env);
  usingDX := parseBoolean (Env.DX env);
  tokenEnforcement := parseBoolean (Env.tokenEnforcement env);
  secretKeyBase64 := Env.secretKeyBase64 env;
  secretKey := base64_decode P (Env.secretKeyBase64 env)
|}.

(* ------------------------------------------------------------------ *)
(** ** Data exchange: the encrypted blob *)

Record DataExchangeData : Type := {
  timestamp : Z;
  email : option string;
  app : string
}.

Definition backslash : string := String (ascii_of_nat 92) EmptyString.

Definition hex_digit (n : nat) : string :=
  String (ascii_of_nat (if (n <? 10)%nat then 48 + n else 87 + n)) EmptyString.

(** One character of a string under [JSON.stringify]. *)
Definition quote_char (c : ascii) : string :=
  let n := nat_of_ascii c in
  if (n =? 34)%nat then backslash ++ JS.dquote
  else if (n =? 92)%nat then backslash ++ backslash
  else if (n =? 8)%nat then backslash ++ "b"
  else if (n =? 12)%nat then backslash ++ "f"
  else if (n =? 10)%nat then backslash ++ "n"
  else if (n =? 13)%nat then backslash ++ "r"
  else if (n =? 9)%nat then backslash ++ "t"
  else if (n <? 32)%nat
       then backslash ++ "u00" ++ hex_digit (n / 16) ++ hex_digit (n mod 16)
       else String c EmptyString.

Fixpoint quote_chars (s : string) : string :=
  match s with
  | EmptyString => EmptyString
  | String c s' => quote_char c ++ quote_chars s'
  end.

Definition quote (s : string) : string :=
  JS.dquote ++ quote_chars s ++ JS.dquote.

(** [JSON.stringify(dataExchangeData)]: a property whose value is
    [undefined] is left out. *)
Definition JSON_stringify (d : DataExchangeData) : string :=
  "{" ++ quote "timestamp" ++ ":" ++ JS.number_to_string (timestamp d)
      ++ match email d with
         | Some e => "," ++ quote "email" ++ ":" ++ quote e
         | None => EmptyString
         end
      ++ "," ++ quote "app" ++ ":" ++ quote (app d) ++ "}".

(** The variable [blob] of [injectArkose]: the empty string, or the object
    that [dataExchangeHandler] returns. *)
Inductive Blob : Type :=
| BlobString (s : string)
| BlobObject (encodedData : string).

(** [blob.encodedData]: a string has no such property. *)
Definition blob_encodedData (blob : Blob) : option string :=
  match blob with
  | BlobString _ => None
  | BlobObject e => Some e
  end.

(** What the handler hands back to the runtime. *)
Inductive EdgeResponse : Type :=
| Passthrough (r : Response)
| Rewritten (r : Response) (script : string)
| Redirect (location : string) (code : Z).

(** [handleFailure]: [Response.redirect(errorUrl, '301')]. *)
Definition handleFailure (errorUrl : string) : EdgeResponse :=
  Redirect errorUrl 301.

(** The marker the handler looks for in a login page. *)
Definition username_marker : string :=
  "name=" ++ JS.dquote ++ "username" ++ JS.dquote ++ " value=" ++ JS.dquote.

(* ------------------------------------------------------------------ *)
(** ** The injected script *)

(** The text of the template between the retry ceiling and the blob
    setting. *)
Definition script_before_blob : string :=
";
              var arkoseScriptSrc = 'https://' + clientSubdomain + '.arkoselabs.com/v2/' + publicKey + '/api.js';
              
              var arkose = null;
              var arkoseRetry = 0;
              var arkoseReady = false;
              var arkoseResetting = false;
              var arkoseCompleted = false;
              var submitForm = document.querySelector('form');
              var submitButton = null;

              setupForm();
      
              /**
              * Sets up the events for hijacking the form submission
              */
              function setupForm() {
                  if (submitForm) {
                      submitButton = submitForm.querySelector('[type=submit]');
                      arkoseComplete = false;
                      if (!arkoseReady) {
                          submitButton.setAttribute('disabled', true);
                      }
                      submitForm.addEventListener('submit', function (event) {
                          if (!arkoseReady) {
                              event.preventDefault();
                              return;
                          }
                          if (!arkoseComplete) {
                              event.preventDefault();
                              arkose.run();
                              return;
                          }
                      })
                  }
              }
      
              /**
              * Checks the current status of the Arkose Labs platform and invokes a callback with the result
              * @param  {function} callback The function to call once the status check has been performed
              */
              function checkArkoseStatus(callback) {
                  try {
                      var xhr = new XMLHttpRequest();
                      xhr.open('GET', 'https://status.arkoselabs.com/api/v2/status.json', false);
                      xhr.onreadystatechange = function() {
                          if (xhr.readyState == XMLHttpRequest.DONE) {
                              if (this.status == 200) {
                                  var res = JSON.parse(xhr.responseText);
                                  var status = res.status.indicator;
                                  callback(!(status === 'critical'));
                                  return;
                              }
                              callback(false);
                          }
                      };
                      xhr.send(null);
                  } catch (error) {
                      callback(false);
                  }
              }
      
              /**
              * In the case of an error reset the arkose cookie and setup a new cookie that tracks the error
              * @param  {string} error The error string to set in the error cookie
              */
              function handleError(error) {
                  arkoseComplete = true;
                  document.cookie = arkoseCookieName + '=;expires=' + new Date(Date.now() + arkoseCookieLife).toUTCString() + '; path=/;';
                  document.cookie = arkoseErrorCookieName + '=' + error + ';expires=' + new Date(Date.now() + arkoseCookieLife).toUTCString() + '; path=/;';                               
              }  
              
               /**
              * The callback thats called after the Arkose Labs script has been loaded
              * @param  {object} myEnforcement The Arkose Labs enforcement object
              */
              function setupEnforcement(myEnforcement) {
                  arkose = myEnforcement;
                  arkose.setConfig({
                      data: {
                        ".

(** The text of the template after the blob. *)
Definition script_after_blob : string :=
"
                      },
                      onReady: function() {
                          arkoseReady = true;
                          if (submitButton) {
                              submitButton.removeAttribute('disabled');
                          }
                          if (arkoseResetting) {
                              arkoseResetting = false;
                              arkose.run();
                          }
                          document.cookie = arkoseCookieName + '=' + '=; expires=Thu, 01 Jan 1970 00:00:00 UTC; path=/;';
                          document.cookie = arkoseErrorCookieName + '=' + '=; expires=Thu, 01 Jan 1970 00:00:00 UTC; path=/;';
                      },
                      onCompleted: function(response) {
                          arkoseComplete = true;
                          if (response.token){
                              document.cookie = arkoseCookieName + '=' + response.token + ';expires=' + new Date(Date.now() + arkoseCookieLife).toUTCString() + '; path=/;';
                          } else {
                              handleError('TOKEN_MISSING');
                          }
                          submitForm.submit();
                      },
                      onError: function(response) {
                          checkArkoseStatus(function (isHealthy) {    
                              if (isHealthy && arkoseRetry < arkoseMaxRetryCount) {
                                  arkoseReady = false;
                                  arkoseResetting = true;
                                  arkose.reset();
                                  arkoseRetry = arkoseRetry + 1;
                                  return;
                              }
                              handleError(response.error ? response.error.error : 'error');
                              submitButton.removeAttribute('disabled');
                              submitForm.submit();
                          });
                      }
                  });
              }

              function createArkoseScript() {
                var script = document.createElement('script');
                script.type = 'text/javascript';
                script.src = arkoseScriptSrc;
                script.setAttribute('data-callback', 'setupEnforcement');
                script.async = true;
                script.defer = true;
                script.id = 'arkose-script';
                document.getElementsByTagName('head')[0].appendChild(script);
            }

            createArkoseScript();

          </script>".

(** The head of the template: the settings read off the constants. *)
Definition script_settings (cfg : Config) : string :=
  "<script>
              var publicKey = '" ++ publicKey cfg
  ++ "';
              var clientSubdomain = '" ++ clientSubdomain cfg
  ++ "';
              var errorUrl = '" ++ errorUrl cfg
  ++ "';
              var arkoseCookieName = '" ++ arkoseCookieName cfg
  ++ "';
              var arkoseErrorCookieName = '" ++ arkoseErrorCookieName cfg
  ++ "';
              var arkoseCookieLife = '" ++ JS.number_to_string (arkoseCookieLife cfg)
  ++ "';
              var failOpen = " ++ JS.bool_to_string (failOpen cfg)
  ++ ";
              var arkoseRetryMax = " ++ JS.number_to_string (scriptMaxRetryCount cfg).

(** The template literal handed to [element.append]. *)
Definition scriptTemplate (cfg : Config) (blob : Blob) : string :=
  script_settings cfg
  ++ script_before_blob
  ++ "blob: " ++ JS.dquote ++ JS.String_of (blob_encodedData blob) ++ JS.dquote
  ++ script_after_blob.

(* ------------------------------------------------------------------ *)
(** ** Injection and the request handler *)

Section Handler.

Variable P : Platform.

(** [new Date().valueOf()]. *)
Definition now : M Z :=
  fun log => (Ret (clock P (clockReads log)), ClockRead :: log).

(** [crypto.getRandomValues(new Uint8Array(12))]. *)
Definition random_iv : M (list byte) :=
  fun log => (Ret (getRandomValues P (randomReads log)), RandomBytes :: log).

(** [encrypt]: a fresh iv, then [importKey] and [crypto.subtle.encrypt]
    with AES-GCM and a 128-bit tag; either of the two may reject. *)
Definition encrypt (keyBytes : list byte) (data : string) : M (list byte * list byte) :=
  iv <- random_iv ;;
  match aes_gcm_encrypt P keyBytes iv data with
  | Some ciphertext => ret (iv, ciphertext)
  | None => throw OperationError
  end.

(** [encode]. *)
Definition encode (iv ciphertext : list byte) : string :=
  base64 P iv ++ "." ++ base64 P ciphertext.

(** [dataExchangeHandler]. *)
Definition dataExchangeHandler (secretKey : list byte) (username : option string) : M Blob :=
  t <- now ;;
  let dataExchangeData := {| timestamp := t; email := username; app := "web-login" |} in
  r <- encrypt secretKey (JSON_stringify dataExchangeData) ;;
  let '(iv, ciphertext) := r in
  ret (BlobObject (encode iv ciphertext)).

Variable cfg : Config.

(** [injectArkose]: [username] is [None] when the caller passes none. *)
Definition injectArkose (response : Response) (username : option string) : M EdgeResponse :=
  blob <- (if usingDX cfg
           then dataExchangeHandler (secretKey cfg) username
           else ret (BlobString EmptyString)) ;;
  ret (Rewritten response (scriptTemplate cfg blob)).

(** [checkResponse]. *)
Definition checkResponse (response : Response) : M EdgeResponse :=
  if status response =? 302
  then ret (Passthrough response)
  else injectArkose response None.

(** The identity hint the GET branch reads off the page. *)
Definition username_of_body (originalBody : string) : string :=
  let position := JS.search originalBody username_marker in
  let endpositon := JS.indexOf originalBody JS.dquote (position + 23) in
  JS.substring originalBody (position + 23) endpositon.

(** The body of [fetch] below its constants. *)
Definition handle (fuel : nat) (request : Request) : M EdgeResponse :=
  if String.eqb (method request) "GET" then
    if usingDX cfg then
      originalResponse <- fetch_origin P request ;;
      let originalBody := body originalResponse in
      let username := username_of_body originalBody in
      res <- fetch_origin P request ;;
      injectArkose res (Some username)
    else
      res <- fetch_origin P request ;;
      let username := EmptyString in
      injectArkose res (Some username)
  else
    let arkoseToken := getCookie (cookieHeader request) (arkoseCookieName cfg) in
    if JS.truthy arkoseToken && negb (JS.strict_eq_string arkoseToken EmptyString) then
      verifyStatus <- verifyArkoseToken P fuel arkoseToken (privateKey cfg)
                        (verifySubdomain cfg) (verifyMaxRetryCount cfg) 0 ;;
      if verified verifyStatus then
        response <- fetch_origin P request ;;
        checkResponse response
      else if negb (arkoseStatus verifyStatus) && failOpen cfg then
        response <- fetch_origin P request ;;
        checkResponse response
      else if tokenEnforcement cfg then
        ret (handleFailure (errorUrl cfg))
      else
        response <- fetch_origin P request ;;
        checkResponse response
    else if tokenEnforcement cfg then
      ret (handleFailure (errorUrl cfg))
    else
      response <- fetch_origin P request ;;
      checkResponse response.

End Handler.

(** The handler [fetch(request, env)]. *)
Definition fetch (P : Platform) (fuel : nat) (request : Request) (env : Env.t) : M EdgeResponse :=
  handle P (configure P env) fuel request.

(** The two lines shared by every non-GET branch that goes to the origin:
    fetch it, then hand the response to [checkResponse]. *)
Definition serve_origin (P : Platform) (cfg : Config) (request : Request) : M EdgeResponse :=
  response <- fetch_origin P request ;;
  checkResponse P cfg response.


(* ------------------------------------------------------------------ *)
(** ** The health checker and one verify attempt, as functions of the reply *)

(** What [checkArkoseStatus] makes of the status endpoint's answer. *)
Definition reports_healthy (r : Reply) : bool :=
  match r with
  | Parsed j =>
      match JS.get_property (JS.Defined j) "status" with
      | Some st =>
          match JS.get_property st "indicator" with
          | Some indicator => negb (JS.strict_eq_string indicator "critical")
          | None => false
          end
      | None => false
      end
  | _ => false
  end.

(** What the [try] block of [verifyArkoseToken] makes of the verify
    endpoint's answer: [Some verified] when it returns, [None] when it
    throws. *)
Definition attempt (r : Reply) : option bool :=
  match r with
  | Parsed j =>
      match JS.get_property (JS.Defined j) "session_details" with
      | Some session_details =>
          if JS.truthy session_details then
            match JS.get_property session_details "solved" with
            | Some solved => Some (JS.truthy solved)
            | None => None
            end
          else Some false
      | None => None
      end
  | _ => None
  end.

(** [session_details.solved] is there and truthy. *)
Definition session_solved (j : JS.JSON) : bool :=
  match JS.get_property (JS.Defined j) "session_details" with
  | Some session_details =>
      JS.truthy session_details
      && match JS.get_property session_details "solved" with
         | Some solved => JS.truthy solved
         | None => false
         end
  | None => false
  end.


(* ------------------------------------------------------------------ *)
(** ** Concrete worlds and requests *)

Module Sample.

Definition status_json (indicator : string) : JS.JSON :=
  JS.JObject [("status", JS.JObject [("indicator", JS.JString indicator)])].

Definition verify_json (solved : bool) : JS.JSON :=
  JS.JObject [("session_details", JS.JObject [("solved", JS.JBool solved)])].

Definition text_of_bytes (bytes : list byte) : string :=
  string_of_list_byte bytes.

(** A platform from its three endpoints; the clock stands still, the
    random bytes are zero and the cipher is the identity. *)
Definition platform (verify status : nat -> Reply) (site : nat -> OriginReply) : Platform := {|
  verify_endpoint := verify;
  status_endpoint := status;
  origin := site;
  clock := fun _ => 1700000000000;
  getRandomValues := fun _ => repeat x00 12;
  aes_gcm_encrypt := fun _ _ data => Some (list_byte_of_string data);
  base64 := text_of_bytes;
  base64_decode := list_byte_of_string
|}.

Definition login_page : Response := {|
  status := 200;
  headers := [("content-type", "text/html")];
  body := "<html><body><form></form></body></html>"
|}.

Definition found : Response := {|
  status := 302;
  headers := [("location", "/u/login")];
  body := "<html><body>Found</body></html>"
|}.

(** A page without the username marker and with a double quote at
    index 22. *)
Definition quoted_page : Response := {|
  status := 200;
  headers := [("content-type", "text/html")];
  body := "<html><body>0123456789" ++ JS.dquote ++ "></body></html>"
|}.

Definition site_up (r : Response) : nat -> OriginReply := fun _ => OriginResponds r.

(** Verify endpoint unreachable, status page green. *)
Definition verify_down : Platform :=
  platform (fun _ => Rejects) (fun _ => Parsed (status_json "none")) (site_up login_page).

(** Verify endpoint unreachable, status page critical. *)
Definition outage : Platform :=
  platform (fun _ => Rejects) (fun _ => Parsed (status_json "critical")) (site_up login_page).

(** Verify endpoint answering the JSON text null, status page green. *)
Definition verify_null : Platform :=
  platform (fun _ => Parsed JS.JNull) (fun _ => Parsed (status_json "none")) (site_up login_page).

(** Verify endpoint answering solved or not solved. *)
Definition verify_says (solved : bool) (r : Response) : Platform :=
  platform (fun _ => Parsed (verify_json solved)) (fun _ => Parsed (status_json "none")) (site_up r).

Definition env (DX enforcement failOpen : string) (retries : string) : Env.t := {|
  Env.publicKey := "11111111-1111-1111-1111-111111111111";
  Env.privateKey := "22222222-2222-2222-2222-222222222222";
  Env.clientSubdomain := None;
  Env.verifySubdomain := None;
  Env.errorUrl := "https://example.com/error";
  Env.arkoseCookieName := None;
  Env.arkoseErrorCookieName := None;
  Env.arkoseCookieLife := Some "300000";
  Env.failOpen := Some failOpen;
  Env.verifyMaxRetryCount := Some retries;
  Env.scriptMaxRetryCount := Some "3";
  Env.DX := Some DX;
  Env.tokenEnforcement := Some enforcement;
  Env.secretKeyBase64 := "c2VjcmV0c2VjcmV0c2VjcmV0"
|}.

Definition get_login : Request := {|
  method := "GET";
  url := "https://tenant.example.com/u/login";
  cookieHeader := None
|}.

Definition post_login (cookie : option string) : Request := {|
  method := "POST";
  url := "https://tenant.example.com/u/login";
  cookieHeader := cookie
|}.

Definition token : JS.Value := JS.Str "abc.123".

End Sample.
(* ------------------------------------------------------------------ *)
(** ** Properties of the health checker and of the retry chain *)

Unset Implicit Arguments.

Lemma checkArkoseStatus_run (P : Platform) (log : Log) :
  checkArkoseStatus P log
  = (Ret (reports_healthy (status_endpoint P (statusCalls log))),
     StatusGET status_url :: log).
Proof.
  unfold checkArkoseStatus, try_catch, bind, fetch_status, reports_healthy.
  destruct (status_endpoint P (statusCalls log)) as [ | | j]; try reflexivity.
  unfold json, get, ret, throw.
  destruct (JS.get_property (JS.Defined j) "status") as [st | ]; [ | reflexivity].
  destruct (JS.get_property st "indicator") as [ind | ]; reflexivity.
Qed.

Lemma statusCalls_VerifyPOST (u k : string) (t : JS.Value) (log : Log) :
  statusCalls (VerifyPOST u k t :: log) = statusCalls log.
Proof. reflexivity. Qed.

(** One unfolding of the retry chain. *)
Lemma verifyArkoseToken_step (P : Platform) (fuel : nat) (token : JS.Value)
    (pk sub : string) (max cur : Z) (log : Log) :
  verifyArkoseToken P (S fuel) token pk sub max cur log
  = let posted := VerifyPOST (verify_url sub) pk token :: log in
    match attempt (verify_endpoint P (verifyCalls log)) with
    | Some v => (Ret {| verified := v; arkoseStatus := true |}, posted)
    | None =>
        let checked := StatusGET status_url :: posted in
        if reports_healthy (status_endpoint P (statusCalls log)) then
          if cur =? max
          then (Ret {| verified := false; arkoseStatus := true |}, checked)
          else verifyArkoseToken P fuel token pk sub max (cur + 1) checked
        else (Ret {| verified := false; arkoseStatus := false |}, checked)
    end.
Proof.
  cbn [verifyArkoseToken].
  unfold try_catch at 1. unfold bind at 1. unfold fetch_verify.
  assert (Hcatch : forall l,
    (arkoseStatus <- checkArkoseStatus P ;;
     (if arkoseStatus
      then if cur =? max
           then ret {| verified := false; arkoseStatus := arkoseStatus |}
           else verifyArkoseToken P fuel token pk sub max (cur + 1)
      else ret {| verified := false; arkoseStatus := arkoseStatus |}))
      (VerifyPOST (verify_url sub) pk token :: l)
    = if reports_healthy (status_endpoint P (statusCalls l)) then
        if cur =? max
        then (Ret {| verified := false; arkoseStatus := true |},
              StatusGET status_url :: VerifyPOST (verify_url sub) pk token :: l)
        else verifyArkoseToken P fuel token pk sub max (cur + 1)
               (StatusGET status_url :: VerifyPOST (verify_url sub) pk token :: l)
      else (Ret {| verified := false; arkoseStatus := false |},
            StatusGET status_url :: VerifyPOST (verify_url sub) pk token :: l)).
  { intro l. unfold bind at 1. rewrite checkArkoseStatus_run.
    rewrite statusCalls_VerifyPOST.
    destruct (reports_healthy (status_endpoint P (statusCalls l))); [ | reflexivity].
    destruct (cur =? max); reflexivity. }
  unfold attempt.
  destruct (verify_endpoint P (verifyCalls log)) as [ | | j]; cbv zeta.
  - apply Hcatch.
  - cbn. apply Hcatch.
  - unfold json, bind at 1, ret at 1, get.
    destruct (JS.get_property (JS.Defined j) "session_details") as [sd | ].
    + unfold bind at 1, ret at 1.
      destruct (JS.truthy sd).
      * unfold bind at 1.
        destruct (JS.get_property sd "solved") as [solved | ].
        -- unfold bind, ret. destruct (JS.truthy solved); reflexivity.
        -- unfold throw. apply Hcatch.
      * unfold bind, ret. reflexivity.
    + unfold bind, throw. apply Hcatch.
Qed.

Lemma verifyCalls_posted (u k : string) (t : JS.Value) (log : Log) :
  verifyCalls (VerifyPOST u k t :: log) = S (verifyCalls log).
Proof. reflexivity. Qed.

Lemma verifyCalls_checked (u : string) (log : Log) :
  verifyCalls (StatusGET u :: log) = verifyCalls log.
Proof. reflexivity. Qed.

Lemma statusCalls_checked (u : string) (log : Log) :
  statusCalls (StatusGET u :: log) = S (statusCalls log).
Proof. reflexivity. Qed.

(** A body other than null makes the [try] block return. *)
Lemma attempt_parsed (j : JS.JSON) :
  j <> JS.JNull -> attempt (Parsed j) = Some (session_solved j).
Proof.
  intro Hj. unfold attempt, session_solved.
  destruct j as [ | b | q | s | items | fields]; try contradiction; cbn; try reflexivity.
  destruct (JS.lookup_field "session_details" fields) as [ | sd]; [reflexivity | ].
  destruct sd as [ | b | q | s | items | fds]; cbn; try reflexivity.
  - destruct b; reflexivity.
  - destruct (negb (QArith_base.Qnum q =? 0)); reflexivity.
  - destruct (negb (String.eqb s EmptyString)); reflexivity.
Qed.

(** The [try] block throws exactly when the fetch rejects, the body is not
    JSON, or the body is the JSON value null. *)
Lemma attempt_throws_iff (r : Reply) :
  attempt r = None <-> r = Rejects \/ r = Unparseable \/ r = Parsed JS.JNull.
Proof.
  split.
  - destruct r as [ | | j]; intro H; [left; reflexivity | right; left; reflexivity | ].
    right; right. destruct j as [ | b | q | s | items | fields];
      try reflexivity; rewrite attempt_parsed in H; discriminate.
  - intros [H | [H | H]]; subst; reflexivity.
Qed.

Section RetryChain.

Variable P : Platform.
Variables (token : JS.Value) (pk sub : string) (max : Z).

(** With [n] retries left and more than [n] units of fuel the chain
    returns, after at least one and at most [n + 1] POSTs. *)
Lemma retry_chain_returns (n : nat) :
  forall (cur : Z) (fuel : nat) (log : Log),
    max - cur = Z.of_nat n -> (n < fuel)%nat ->
    exists vs log',
      verifyArkoseToken P fuel token pk sub max cur log
      = (Ret vs, log')
      /\ (verifyCalls log < verifyCalls log' <= verifyCalls log + n + 1)%nat.
Proof.
  induction n as [ | n IH]; intros cur fuel log Hleft Hfuel;
    (destruct fuel as [ | fuel]; [lia | ]);
    rewrite verifyArkoseToken_step; cbv zeta;
    destruct (attempt (verify_endpoint P (verifyCalls log))) as [v | ].
  - eexists; eexists; split; [reflexivity | rewrite verifyCalls_posted; lia].
  - destruct (reports_healthy (status_endpoint P (statusCalls log))).
    + replace (cur =? max) with true by (symmetry; apply Z.eqb_eq; lia).
      eexists; eexists; split;
        [reflexivity | rewrite verifyCalls_checked, verifyCalls_posted; lia].
    + eexists; eexists; split;
        [reflexivity | rewrite verifyCalls_checked, verifyCalls_posted; lia].
  - eexists; eexists; split; [reflexivity | rewrite verifyCalls_posted; lia].
  - destruct (reports_healthy (status_endpoint P (statusCalls log))).
    + replace (cur =? max) with false by (symmetry; apply Z.eqb_neq; lia).
      destruct (IH (cur + 1) fuel
                  (StatusGET status_url :: VerifyPOST (verify_url sub) pk token :: log))
        as (vs & log' & Hrun & Hcalls); [lia | lia | ].
      rewrite verifyCalls_checked, verifyCalls_posted in Hcalls.
      exists vs, log'. split; [exact Hrun | lia].
    + eexists; eexists; split;
        [reflexivity | rewrite verifyCalls_checked, verifyCalls_posted; lia].
Qed.

Hypothesis verify_always_throws : forall k, attempt (verify_endpoint P k) = None.
Hypothesis always_healthy : forall k, reports_healthy (status_endpoint P k) = true.

(** Every attempt failing and the platform healthy, the chain uses every
    retry it has. *)
Lemma retry_chain_exhausts (n : nat) :
  forall (cur : Z) (fuel : nat) (log : Log),
    max - cur = Z.of_nat n -> (n < fuel)%nat ->
    exists log',
      verifyArkoseToken P fuel token pk sub max cur log
      = (Ret {| verified := false; arkoseStatus := true |}, log')
      /\ verifyCalls log' = (verifyCalls log + n + 1)%nat
      /\ statusCalls log' = (statusCalls log + n + 1)%nat.
Proof.
  induction n as [ | n IH]; intros cur fuel log Hleft Hfuel;
    (destruct fuel as [ | fuel]; [lia | ]);
    rewrite verifyArkoseToken_step; cbv zeta;
    rewrite verify_always_throws, always_healthy.
  - replace (cur =? max) with true by (symmetry; apply Z.eqb_eq; lia).
    eexists; split; [reflexivity | ].
    rewrite verifyCalls_checked, verifyCalls_posted,
      statusCalls_checked, statusCalls_VerifyPOST. lia.
  - replace (cur =? max) with false by (symmetry; apply Z.eqb_neq; lia).
    destruct (IH (cur + 1) fuel
                (StatusGET status_url :: VerifyPOST (verify_url sub) pk token :: log))
      as (log' & Hrun & Hv & Hs); [lia | lia | ].
    rewrite verifyCalls_checked, verifyCalls_posted in Hv.
    rewrite statusCalls_checked, statusCalls_VerifyPOST in Hs.
    exists log'. split; [exact Hrun | lia].
Qed.

(** Past the ceiling the equality test never holds: the chain goes on for
    as long as there is fuel. *)
Lemma retry_chain_runs_on :
  forall (fuel : nat) (cur : Z) (log : Log),
    max < cur ->
    exists log',
      verifyArkoseToken P fuel token pk sub max cur log
      = (OutOfFuel, log')
      /\ verifyCalls log' = (verifyCalls log + fuel)%nat.
Proof.
  induction fuel as [ | fuel IH]; intros cur log Hpast.
  - exists log. split; [reflexivity | lia].
  - rewrite verifyArkoseToken_step; cbv zeta.
    rewrite verify_always_throws, always_healthy.
    replace (cur =? max) with false by (symmetry; apply Z.eqb_neq; lia).
    destruct (IH (cur + 1)
                (StatusGET status_url :: VerifyPOST (verify_url sub) pk token :: log))
      as (log' & Hrun & Hv); [lia | ].
    rewrite verifyCalls_checked, verifyCalls_posted in Hv.
    exists log'. split; [exact Hrun | lia].
Qed.

End RetryChain.

(* ------------------------------------------------------------------ *)
(** ** The token verifier *)

(** C1 (as amended).  For every token, private key and subdomain and every
    retry ceiling [verifyMaxRetryCount >= 0], the chain started at
    [currentRetry = 0] returns after at most [verifyMaxRetryCount + 1]
    POSTs to the verify endpoint, one per invocation.  When every attempt
    throws and every health check reports healthy it makes exactly that
    many and returns verified = false, arkoseStatus = true: three
    invocations for a ceiling of 2. *)
Theorem verify_retry_chain_bounded (P : Platform) (token : JS.Value)
    (pk sub : string) (max : Z) (fuel : nat) (log : Log) :
  0 <= max -> (Z.to_nat max < fuel)%nat ->
  exists vs log',
    verifyArkoseToken P fuel token pk sub max 0 log = (Ret vs, log')
    /\ (verifyCalls log' <= verifyCalls log + Z.to_nat max + 1)%nat
    /\ ((forall k, attempt (verify_endpoint P k) = None) ->
        (forall k, reports_healthy (status_endpoint P k) = true) ->
        vs = {| verified := false; arkoseStatus := true |}
        /\ verifyCalls log' = (verifyCalls log + Z.to_nat max + 1)%nat).
Proof.
  intros Hmax Hfuel.
  destruct (@retry_chain_returns P token pk sub max (Z.to_nat max) 0 fuel log)
    as (vs & log' & Hrun & Hcalls); [lia | exact Hfuel | ].
  exists vs, log'. split; [exact Hrun | ]. split; [lia | ].
  intros Hthrows Hhealthy.
  destruct (@retry_chain_exhausts P token pk sub max Hthrows Hhealthy
              (Z.to_nat max) 0 fuel log)
    as (log'' & Hrun' & Hv & _); [lia | exact Hfuel | ].
  rewrite Hrun in Hrun'. inversion Hrun'; subst. split; [reflexivity | exact Hv].
Qed.

Lemma verify_retry_chain_bounded_witness :
  exists log',
    verifyArkoseToken Sample.verify_down 3 Sample.token "key" "verify-api" 2 0 []
    = (Ret {| verified := false; arkoseStatus := true |}, log')
    /\ verifyCalls log' = 3%nat.
Proof.
  destruct (@verify_retry_chain_bounded Sample.verify_down Sample.token
              "key" "verify-api" 2 3 [])
    as (vs & log' & Hrun & _ & Hall); [lia | simpl; lia | ].
  destruct Hall as [Hvs Hcalls]; [intro k; reflexivity | intro k; reflexivity | ].
  exists log'. split; [rewrite <- Hvs; exact Hrun | exact Hcalls].
Defined.

(** C1, the counterexample: with the ceiling -1, the verify endpoint
    unreachable and the platform healthy, no amount of fuel lets the chain
    return. *)
Lemma verify_retry_chain_negative_ceiling :
  ~ exists fuel vs log',
      verifyArkoseToken Sample.verify_down fuel Sample.token "key" "verify-api" (-1) 0 []
      = (Ret vs, log').
Proof.
  intros (fuel & vs & log' & Hrun).
  destruct (@retry_chain_runs_on Sample.verify_down Sample.token "key" "verify-api" (-1)
              (fun k => eq_refl) (fun k => eq_refl) fuel 0 [])
    as (log'' & Hout & _); [lia | ].
  rewrite Hrun in Hout. discriminate Hout.
Qed.

(** C2.  When the verify attempt throws and the health check that follows
    reports unhealthy, [verifyArkoseToken] returns verified = false,
    arkoseStatus = false at once: the log gains exactly one POST and one
    status GET, whatever the ceiling and the current retry are. *)
Theorem verify_unhealthy_stops (P : Platform) (fuel : nat) (token : JS.Value)
    (pk sub : string) (max cur : Z) (log : Log) :
  attempt (verify_endpoint P (verifyCalls log)) = None ->
  reports_healthy (status_endpoint P (statusCalls log)) = false ->
  verifyArkoseToken P (S fuel) token pk sub max cur log
  = (Ret {| verified := false; arkoseStatus := false |},
     StatusGET status_url :: VerifyPOST (verify_url sub) pk token :: log).
Proof.
  intros Hthrows Hdown.
  rewrite verifyArkoseToken_step; cbv zeta.
  rewrite Hthrows, Hdown. reflexivity.
Qed.

Lemma verify_unhealthy_stops_witness :
  verifyArkoseToken Sample.outage 6 Sample.token "key" "verify-api" 5 0 []
  = (Ret {| verified := false; arkoseStatus := false |},
     [StatusGET status_url; VerifyPOST (verify_url "verify-api") "key" Sample.token]).
Proof.
  apply (@verify_unhealthy_stops Sample.outage 5 Sample.token "key" "verify-api" 5 0 []);
    reflexivity.
Defined.

(** C3 (as amended).  When the POST resolves and its body parses to a JSON
    value other than null, [verifyArkoseToken] returns at once with
    arkoseStatus = true and verified = true exactly when
    [session_details.solved] is there and truthy: the log gains the one
    POST and no status GET, whatever the value of solved. *)
Theorem verify_success_returns (P : Platform) (fuel : nat) (token : JS.Value)
    (pk sub : string) (max cur : Z) (log : Log) (j : JS.JSON) :
  verify_endpoint P (verifyCalls log) = Parsed j ->
  j <> JS.JNull ->
  verifyArkoseToken P (S fuel) token pk sub max cur log
  = (Ret {| verified := session_solved j; arkoseStatus := true |},
     VerifyPOST (verify_url sub) pk token :: log).
Proof.
  intros Hreply Hj.
  rewrite verifyArkoseToken_step; cbv zeta.
  rewrite Hreply, (attempt_parsed j Hj). reflexivity.
Qed.

Lemma verify_success_returns_witness :
  verifyArkoseToken (Sample.verify_says false Sample.login_page) 3
    Sample.token "key" "verify-api" 2 0 []
  = (Ret {| verified := false; arkoseStatus := true |},
     [VerifyPOST (verify_url "verify-api") "key" Sample.token]).
Proof.
  apply (@verify_success_returns (Sample.verify_says false Sample.login_page) 2
           Sample.token "key" "verify-api" 2 0 [] (Sample.verify_json false)).
  - reflexivity.
  - discriminate.
Defined.

(** C3, the counterexample: the POST resolves and its body is the JSON
    text null.  Reading [session_details] off null throws, so the handler
    of the [try] block runs: with a ceiling of 1 the verifier checks the
    platform twice and posts twice. *)
Lemma verify_null_body_retried :
  verify_endpoint Sample.verify_null 0 = Parsed JS.JNull
  /\ verifyArkoseToken Sample.verify_null 5 Sample.token "key" "verify-api" 1 0 []
     = (Ret {| verified := false; arkoseStatus := true |},
        [StatusGET status_url; VerifyPOST (verify_url "verify-api") "key" Sample.token;
         StatusGET status_url; VerifyPOST (verify_url "verify-api") "key" Sample.token]).
Proof. split; reflexivity. Qed.

(* ------------------------------------------------------------------ *)
(** ** The request handler *)

Lemma bind_returns (A B : Type) (m : M A) (k : A -> M B) (log log' : Log) (b : B) :
  bind m k log = (Ret b, log') ->
  exists a l, m log = (Ret a, l) /\ k a l = (Ret b, log').
Proof.
  unfold bind. destruct (m log) as [[a | e | ] l]; intro H; try discriminate H.
  exists a, l. split; [reflexivity | exact H].
Qed.

Lemma not_GET (request : Request) :
  method request <> "GET" -> String.eqb (method request) "GET" = false.
Proof. intro H. apply String.eqb_neq. exact H. Qed.

Lemma fetch_origin_run (P : Platform) (request : Request) (log : Log) :
  fetch_origin P request log
  = (match origin P (originCalls log) with
     | OriginRejects => Throw NetworkError
     | OriginResponds r => Ret r
     end, OriginFetch request :: log).
Proof. unfold fetch_origin. destruct (origin P (originCalls log)); reflexivity. Qed.

Lemma originCalls_fetched (request : Request) (log : Log) :
  originCalls (OriginFetch request :: log) = S (originCalls log).
Proof. reflexivity. Qed.

(** The retry chain never touches the origin. *)
Lemma verifyArkoseToken_originCalls (P : Platform) (token : JS.Value)
    (pk sub : string) (max : Z) :
  forall (fuel : nat) (cur : Z) (log log' : Log) (res : Res VerifyStatus),
    verifyArkoseToken P fuel token pk sub max cur log = (res, log') ->
    originCalls log' = originCalls log.
Proof.
  induction fuel as [ | fuel IH]; intros cur log log' res Hrun.
  - cbn in Hrun. inversion Hrun. reflexivity.
  - rewrite verifyArkoseToken_step in Hrun; cbv zeta in Hrun.
    destruct (attempt (verify_endpoint P (verifyCalls log))).
    + inversion Hrun. reflexivity.
    + destruct (reports_healthy (status_endpoint P (statusCalls log))).
      * destruct (cur =? max).
        -- inversion Hrun. reflexivity.
        -- apply IH in Hrun. exact Hrun.
      * inversion Hrun. reflexivity.
Qed.

Lemma injectArkose_without_DX (P : Platform) (cfg : Config) (r : Response)
    (username : option string) (log : Log) :
  usingDX cfg = false ->
  injectArkose P cfg r username log
  = (Ret (Rewritten r (scriptTemplate cfg (BlobString EmptyString))), log).
Proof. intro H. unfold injectArkose. rewrite H. reflexivity. Qed.




Lemma serve_origin_script (P : Platform) (cfg : Config) (request : Request)
    (log log' : Log) (r : Response) (script : string) :
  usingDX cfg = false ->
  serve_origin P cfg request log = (Ret (Rewritten r script), log') ->
  script = scriptTemplate cfg (BlobString EmptyString).
Proof.
  intros HDX Hrun. unfold serve_origin in Hrun.
  apply bind_returns in Hrun. destruct Hrun as (r0 & l & _ & Hcheck).
  unfold checkResponse in Hcheck. destruct (status r0 =? 302).
  - discriminate Hcheck.
  - rewrite (injectArkose_without_DX P cfg r0 None l HDX) in Hcheck.
    inversion Hcheck. reflexivity.
Qed.

(** The non-GET branch with a token in the cookie. *)
Lemma handle_token (P : Platform) (cfg : Config) (fuel : nat) (request : Request)
    (log : Log) (tok : string) :
  method request <> "GET" ->
  getCookie (cookieHeader request) (arkoseCookieName cfg) = JS.Str tok ->
  tok <> EmptyString ->
  handle P cfg fuel request log
  = match verifyArkoseToken P fuel (JS.Str tok) (privateKey cfg) (verifySubdomain cfg)
            (verifyMaxRetryCount cfg) 0 log with
    | (Ret vs, log1) =>
        if verified vs then serve_origin P cfg request log1
        else if negb (arkoseStatus vs) && failOpen cfg then serve_origin P cfg request log1
        else if tokenEnforcement cfg then (Ret (Redirect (errorUrl cfg) 301), log1)
        else serve_origin P cfg request log1
    | (Throw e, log1) => (Throw e, log1)
    | (OutOfFuel, log1) => (OutOfFuel, log1)
    end.
Proof.
  intros Hm Hc Ht. unfold handle.
  rewrite (not_GET request Hm), Hc.
  assert (Hne : String.eqb tok EmptyString = false) by (apply String.eqb_neq; exact Ht).
  cbn [JS.truthy JS.Str JS.strict_eq_string]. rewrite Hne. cbn [negb andb].
  unfold bind at 1.
  destruct (verifyArkoseToken P fuel (JS.Str tok) (privateKey cfg)
              (verifySubdomain cfg) (verifyMaxRetryCount cfg) 0 log) as [[vs | e | ] log1];
    try reflexivity.
  destruct (verified vs); [reflexivity | ].
  destruct (negb (arkoseStatus vs) && failOpen cfg); [reflexivity | ].
  destruct (tokenEnforcement cfg); reflexivity.
Qed.

(** The non-GET branch without a token. *)
Lemma handle_no_token (P : Platform) (cfg : Config) (fuel : nat) (request : Request)
    (log : Log) :
  method request <> "GET" ->
  JS.truthy (getCookie (cookieHeader request) (arkoseCookieName cfg)) = false ->
  handle P cfg fuel request log
  = if tokenEnforcement cfg
    then (Ret (Redirect (errorUrl cfg) 301), log)
    else serve_origin P cfg request log.
Proof.
  intros Hm Hc. unfold handle. rewrite (not_GET request Hm), Hc. cbn [andb].
  destruct (tokenEnforcement cfg); reflexivity.
Qed.

(** What [getCookie] can return. *)
Lemma getCookie_cases (cookieString : option string) (cookieKey : string) :
  getCookie cookieString cookieKey = JS.Null
  \/ getCookie cookieString cookieKey = JS.Undefined
  \/ exists v, getCookie cookieString cookieKey = JS.Str v.
Proof.
  unfold getCookie. destruct cookieString as [cs | ]; [ | left; reflexivity].
  destruct (JS.truthy (JS.Str cs)); [ | left; reflexivity].
  destruct (find _ _) as [target | ]; [ | left; reflexivity].
  destruct (JS.truthy (JS.Str target)); [ | left; reflexivity].
  unfold JS.second. destruct (JS.split target _) as [ | a [ | v rest]].
  - right; left; reflexivity.
  - right; left; reflexivity.
  - right; right; exists v; reflexivity.
Qed.











(** C9 (as amended).  With data exchange off, every script the handler
    injects, on whichever path, carries the blob setting with the text
    undefined between the quotes, nine characters long: the variable blob
    is the empty string, which has no [encodedData]. *)
Theorem injected_blob_undefined (P : Platform) (fuel : nat) (request : Request)
    (env : Env.t) (log log' : Log) (r : Response) (script : string) :
  usingDX (configure P env) = false ->
  fetch P fuel request env log = (Ret (Rewritten r script), log') ->
  script = script_settings (configure P env) ++ script_before_blob
           ++ "blob: " ++ JS.dquote ++ "undefined" ++ JS.dquote ++ script_after_blob
  /\ JS.String_of (blob_encodedData (BlobString EmptyString)) = "undefined"
  /\ String.length (JS.String_of (blob_encodedData (BlobString EmptyString))) = 9%nat.
Proof.
  intros HDX Hrun. split; [ | split; reflexivity].
  change (script = scriptTemplate (configure P env) (BlobString EmptyString)).
  unfold fetch in Hrun.
  assert (Hserve : forall l,
    serve_origin P (configure P env) request l = (Ret (Rewritten r script), log') ->
    script = scriptTemplate (configure P env) (BlobString EmptyString)).
  { intros l Hs.
    exact (serve_origin_script P (configure P env) request l log' r script HDX Hs). }
  assert (Hnone : JS.truthy (getCookie (cookieHeader request)
                               (arkoseCookieName (configure P env))) = false ->
                  method request <> "GET" ->
                  script = scriptTemplate (configure P env) (BlobString EmptyString)).
  { intros Hc Hm.
    rewrite (handle_no_token P (configure P env) fuel request log Hm Hc) in Hrun.
    destruct (tokenEnforcement (configure P env)); [discriminate Hrun | ].
    exact (Hserve log Hrun). }
  destruct (String.eqb (method request) "GET") eqn:Hm.
  - unfold handle in Hrun. rewrite Hm, HDX in Hrun.
    apply bind_returns in Hrun. destruct Hrun as (res & l & _ & Hinj).
    rewrite (injectArkose_without_DX P (configure P env) res _ l HDX) in Hinj.
    inversion Hinj. reflexivity.
  - apply String.eqb_neq in Hm.
    destruct (getCookie_cases (cookieHeader request) (arkoseCookieName (configure P env)))
      as [Hc | [Hc | [v Hc]]].
    1, 2: apply Hnone; [rewrite Hc; reflexivity | exact Hm].
    destruct (String.eqb v EmptyString) eqn:Hv.
    + apply Hnone; [rewrite Hc; cbn; rewrite Hv; reflexivity | exact Hm].
    + apply String.eqb_neq in Hv.
      rewrite (handle_token P (configure P env) fuel request log v Hm Hc Hv) in Hrun.
      destruct (verifyArkoseToken P fuel (JS.Str v) (privateKey (configure P env))
                  (verifySubdomain (configure P env))
                  (verifyMaxRetryCount (configure P env)) 0 log)
        as [[vs | e | ] log1]; try discriminate Hrun.
      destruct (verified vs); [exact (Hserve log1 Hrun) | ].
      destruct (negb (arkoseStatus vs) && failOpen (configure P env));
        [exact (Hserve log1 Hrun) | ].
      destruct (tokenEnforcement (configure P env));
        [discriminate Hrun | exact (Hserve log1 Hrun)].
Qed.

Lemma injected_blob_undefined_witness :
  scriptTemplate (configure Sample.verify_down (Sample.env "false" "true" "false" "2"))
    (BlobString EmptyString)
  = script_settings (configure Sample.verify_down (Sample.env "false" "true" "false" "2"))
    ++ script_before_blob
    ++ "blob: " ++ JS.dquote ++ "undefined" ++ JS.dquote ++ script_after_blob
  /\ JS.String_of (blob_encodedData (BlobString EmptyString)) = "undefined"
  /\ String.length (JS.String_of (blob_encodedData (BlobString EmptyString))) = 9%nat.
Proof.
  apply (injected_blob_undefined Sample.verify_down 1 Sample.get_login
           (Sample.env "false" "true" "false" "2") [] [OriginFetch Sample.get_login]
           Sample.login_page).
  - reflexivity.
  - reflexivity.
Defined.

(** C9, the counterexample: the text put between the quotes of the blob
    setting when data exchange is off is undefined, and that is not eight
    characters long. *)
Lemma injected_blob_not_eight_characters :
  JS.String_of (blob_encodedData (BlobString EmptyString)) = "undefined"
  /\ String.length (JS.String_of (blob_encodedData (BlobString EmptyString))) <> 8%nat.
Proof. split; [reflexivity | discriminate]. Qed.

(* ------------------------------------------------------------------ *)
(** ** The identity hint of the GET branch *)

Lemma prefix_length (p s : string) :
  String.prefix p s = true -> (String.length p <= String.length s)%nat.
Proof.
  revert s. induction p as [ | c p IH]; intros s H; [cbn; lia | ].
  destruct s as [ | d s]; [discriminate H | ].
  cbn in H. destruct (Ascii.ascii_dec c d); [ | discriminate H].
  apply IH in H. cbn. lia.
Qed.

(** Where [String.index] finds an occurrence. *)
Lemma index_bounds (needle : string) :
  forall (s : string) (n m : nat),
    String.index n needle s = Some m ->
    (n <= m /\ m + String.length needle <= String.length s)%nat.
Proof.
  induction s as [ | c s IH]; intros n m H.
  - cbn in H. destruct n; [ | discriminate H].
    destruct needle; [ | discriminate H]. inversion H. cbn. lia.
  - destruct n as [ | n].
    + cbn [String.index] in H.
      destruct (String.prefix needle (String c s)) eqn:Hp.
      * inversion H; subst. apply prefix_length in Hp. lia.
      * destruct (String.index 0 needle s) as [k | ] eqn:Hk; [ | discriminate H].
        inversion H; subst. apply IH in Hk. cbn. lia.
    + cbn [String.index] in H.
      destruct (String.index n needle s) as [k | ] eqn:Hk; [ | discriminate H].
      inversion H; subst. apply IH in Hk. cbn. lia.
Qed.

Lemma substring_from_0_capped (s : string) :
  forall n : nat,
    String.substring 0 (Nat.min n (String.length s)) s = String.substring 0 n s.
Proof.
  induction s as [ | c s IH]; intro n.
  - destruct n; reflexivity.
  - destruct n as [ | n]; [reflexivity | ].
    cbn. rewrite IH. reflexivity.
Qed.

(** The hint when the search for the marker fails. *)
Lemma username_of_body_without_marker (originalBody : string) :
  JS.search originalBody username_marker = -1 ->
  username_of_body originalBody
  = match String.index 22 JS.dquote originalBody with
    | Some e => String.substring 22 (e - 22) originalBody
    | None => String.substring 0 22 originalBody
    end.
Proof.
  intro Hsearch. unfold username_of_body. rewrite Hsearch.
  change (-1 + 23) with 22. unfold JS.indexOf, JS.substring.
  change (Z.to_nat 22) with 22%nat.
  destruct (String.index 22 JS.dquote originalBody) as [e | ] eqn:He; cbv zeta.
  - apply index_bounds in He. cbn [String.length JS.dquote] in He.
    f_equal; lia.
  - rewrite <- substring_from_0_capped. f_equal; lia.
Qed.

(** C10 (as amended).  On a GET request with data exchange on, when the
    body of the first origin response does not hold the marker, the search
    gives -1 and the hint handed to [injectArkose] is cut out of the body
    from index 22: up to the first double quote at an index e >= 22 when
    there is one (the empty string when e = 22), and otherwise the first
    22 characters of the body (all of it when it is shorter). *)
Theorem GET_hint_without_marker (P : Platform) (fuel : nat) (request : Request)
    (env : Env.t) (log : Log) (r1 : Response) :
  method request = "GET" ->
  usingDX (configure P env) = true ->
  origin P (originCalls log) = OriginResponds r1 ->
  JS.search (body r1) username_marker = -1 ->
  fetch P fuel request env log
  = (res <- fetch_origin P request ;;
     injectArkose P (configure P env) res
       (Some match String.index 22 JS.dquote (body r1) with
             | Some e => String.substring 22 (e - 22) (body r1)
             | None => String.substring 0 22 (body r1)
             end)) (OriginFetch request :: log)
  /\ (forall e, String.index 22 JS.dquote (body r1) = Some e ->
      (22 <= e < String.length (body r1))%nat
      /\ String.substring e 1 (body r1) = JS.dquote
      /\ forall p, (22 <= p)%nat -> (p < e)%nat ->
                   String.substring p 1 (body r1) <> JS.dquote)
  /\ (String.index 22 JS.dquote (body r1) = None ->
      forall p, (22 <= p)%nat -> String.substring p 1 (body r1) <> JS.dquote).
Proof.
  intros Hm HDX Hr Hsearch. split; [ | split].
  - unfold fetch, handle. rewrite Hm, HDX. cbn [String.eqb Ascii.eqb Bool.eqb].
    unfold bind at 1. rewrite fetch_origin_run, Hr.
    rewrite (username_of_body_without_marker (body r1) Hsearch). reflexivity.
  - intros e He. split; [ | split].
    + apply index_bounds in He. cbn [String.length JS.dquote] in He. lia.
    + exact (String.index_correct1 22 e JS.dquote (body r1) He).
    + intros p Hlo Hhi.
      exact (String.index_correct2 22 e JS.dquote (body r1) He p Hlo Hhi).
  - intros Hnone p Hlo.
    apply (String.index_correct3 22 p JS.dquote (body r1) Hnone); [discriminate | exact Hlo].
Qed.

Lemma GET_hint_without_marker_witness :
  fetch Sample.verify_down 1 Sample.get_login (Sample.env "true" "true" "false" "2") []
  = (res <- fetch_origin Sample.verify_down Sample.get_login ;;
     injectArkose Sample.verify_down
       (configure Sample.verify_down (Sample.env "true" "true" "false" "2")) res
       (Some "<html><body><form></fo")) [OriginFetch Sample.get_login].
Proof.
  exact (proj1 (GET_hint_without_marker Sample.verify_down 1 Sample.get_login
                  (Sample.env "true" "true" "false" "2") [] Sample.login_page
                  eq_refl eq_refl eq_refl eq_refl)).
Defined.

(** C10, the counterexample: the body has no marker and a double quote
    at index 22, and the hint handed to [injectArkose] is the empty
    string. *)
Lemma GET_hint_empty :
  JS.search (body Sample.quoted_page) username_marker = -1
  /\ username_of_body (body Sample.quoted_page) = EmptyString
  /\ fetch (Sample.platform (fun _ => Rejects) (fun _ => Rejects)
              (Sample.site_up Sample.quoted_page)) 1
       Sample.get_login (Sample.env "true" "true" "false" "2") []
     = (res <- fetch_origin (Sample.platform (fun _ => Rejects) (fun _ => Rejects)
                               (Sample.site_up Sample.quoted_page)) Sample.get_login ;;
        injectArkose (Sample.platform (fun _ => Rejects) (fun _ => Rejects)
                        (Sample.site_up Sample.quoted_page))
          (configure (Sample.platform (fun _ => Rejects) (fun _ => Rejects)
                        (Sample.site_up Sample.quoted_page))
             (Sample.env "true" "true" "false" "2")) res
          (Some EmptyString)) [OriginFetch Sample.get_login].
Proof. split; [reflexivity | split; reflexivity]. Qed.

(* ------------------------------------------------------------------ *)
(** ** The cookie extractor *)

Lemma rev_string_append (s acc t : string) :
  JS.rev_string acc s ++ t = JS.rev_string (acc ++ t) s.
Proof.
  revert acc. induction s as [ | c s IH]; intro acc; [reflexivity | ].
  cbn. rewrite IH. reflexivity.
Qed.

Lemma prefix_append (p t : string) : String.prefix p (p ++ t) = true.
Proof.
  induction p as [ | c p IH]; [destruct t; reflexivity | ].
  cbn. destruct (Ascii.ascii_dec c c) as [_ | Hne]; [exact IH | contradiction].
Qed.

(** Passing over the rest of a separator that was just matched. *)
Lemma split_go_skip (sep : string) (x : string) :
  forall cur v, JS.split_go sep (String.length x) cur (x ++ v) = JS.split_go sep 0 cur v.
Proof.
  induction x as [ | c x IH]; intros cur v.
  - cbn. destruct v; reflexivity.
  - cbn. apply IH.
Qed.

(** A string in which the separator does not occur is one piece. *)
Lemma split_go_no_match (sep : string) :
  forall v cur,
    String.index 0 sep v = None ->
    JS.split_go sep 0 cur v = [JS.rev_string EmptyString cur ++ v].
Proof.
  induction v as [ | c v IH]; intros cur Hnone.
  - cbn. rewrite rev_string_append. reflexivity.
  - cbn [String.index] in Hnone. cbn [JS.split_go].
    destruct (String.prefix sep (String c v)); [discriminate Hnone | ].
    destruct (String.index 0 sep v) as [k | ] eqn:Hk; [discriminate Hnone | ].
    rewrite (IH (String c cur) eq_refl). cbn [JS.rev_string].
    rewrite !rev_string_append. reflexivity.
Qed.

(** A piece that starts with the key and the equals sign, and holds them
    nowhere in the value, splits into the empty string and the value. *)
Lemma split_key_value (key v : string) :
  String.index 0 (key ++ "=") v = None ->
  JS.split ((key ++ "=") ++ v) (key ++ "=") = [EmptyString; v].
Proof.
  intro Hnone. unfold JS.split.
  destruct (key ++ "=") as [ | a sep'] eqn:Hsep.
  - destruct key; discriminate Hsep.
  - change (String a sep' ++ v) with (String a (sep' ++ v)).
    cbn [JS.split_go].
    change (String a (sep' ++ v)) with (String a sep' ++ v).
    rewrite prefix_append. cbn [String.length Nat.pred JS.rev_string].
    rewrite split_go_skip, (split_go_no_match (String a sep') v EmptyString Hnone).
    reflexivity.
Qed.

Lemma getCookie_no_header (cookieKey : string) :
  getCookie None cookieKey = JS.Null.
Proof. reflexivity. Qed.

Lemma getCookie_empty_header (cookieKey : string) :
  getCookie (Some EmptyString) cookieKey = JS.Null.
Proof. reflexivity. Qed.

(** No piece of the header holds the key: null. *)
Lemma getCookie_no_piece (cookieString cookieKey : string) :
  (forall piece, In piece (JS.split cookieString "; ") ->
                 JS.includes piece cookieKey = false) ->
  getCookie (Some cookieString) cookieKey = JS.Null.
Proof.
  intro Hnone. unfold getCookie.
  destruct (JS.truthy (JS.Str cookieString)); [ | reflexivity].
  destruct (find (fun cookie => JS.includes cookie cookieKey)
              (JS.split cookieString "; ")) as [target | ] eqn:Hfind; [ | reflexivity].
  apply find_some in Hfind. destruct Hfind as [Hin Hinc].
  rewrite (Hnone target Hin) in Hinc. discriminate Hinc.
Qed.

(** The first piece that holds the key is the key, the equals sign and a
    value free of them: the value. *)
Lemma getCookie_value (cookieString cookieKey v : string) :
  cookieString <> EmptyString ->
  find (fun cookie => JS.includes cookie cookieKey) (JS.split cookieString "; ")
  = Some ((cookieKey ++ "=") ++ v) ->
  String.index 0 (cookieKey ++ "=") v = None ->
  getCookie (Some cookieString) cookieKey = JS.Str v.
Proof.
  intros Hcs Hfind Hnone. unfold getCookie.
  apply String.eqb_neq in Hcs. cbn [JS.truthy JS.Str]. rewrite Hcs. cbn [negb].
  rewrite Hfind.
  assert (Hpiece : String.eqb ((cookieKey ++ "=") ++ v) EmptyString = false).
  { apply String.eqb_neq. destruct cookieKey; discriminate. }
  rewrite Hpiece. cbn [negb]. rewrite (split_key_value cookieKey v Hnone). reflexivity.
Qed.

(** C7, on the failing input: a cookie whose name holds the key comes
    first in the header.  The extractor takes that piece for the target,
    finds no key followed by the equals sign in it, and returns undefined;
    the value abc of the cookie named by the key is not returned. *)
Theorem getCookie_longer_name_first :
  getCookie (Some "arkoseTokenOld=zzz; arkoseToken=abc") "arkoseToken" = JS.Undefined
  /\ getCookie (Some "arkoseToken=abc; arkoseTokenOld=zzz") "arkoseToken" = JS.Str "abc".
Proof. split; reflexivity. Qed.

(** The value is cut at a second occurrence of the key and the equals
    sign in the piece. *)
Lemma getCookie_value_cut :
  getCookie (Some "arkoseToken=abc&arkoseToken=def") "arkoseToken" = JS.Str "abc&".
Proof. reflexivity. Qed.

(* ------------------------------------------------------------------ *)
(** ** The configuration parsers and the health checker on examples *)

Lemma parseNumber_examples :
  parseNumber (Some "abc") = 0 /\ parseNumber (Some "42") = 42
  /\ parseNumber (Some EmptyString) = 0 /\ parseNumber None = 0
  /\ parseNumber (Some "-1") = -1.
Proof. repeat split; reflexivity. Qed.

Lemma parseBoolean_examples :
  parseBoolean (Some "TRUE") = true /\ parseBoolean (Some "false") = false
  /\ parseBoolean (Some EmptyString) = false /\ parseBoolean None = false.
Proof. repeat split; reflexivity. Qed.

Lemma session_solved_examples :
  session_solved (Sample.verify_json true) = true
  /\ session_solved (Sample.verify_json false) = false
  /\ session_solved (JS.JObject []) = false
  /\ session_solved (JS.JObject [("session_details", JS.JObject [])]) = false
  /\ session_solved (JS.JObject [("session_details", JS.JNull)]) = false
  /\ session_solved (JS.JString "ok") = false.
Proof. repeat split; reflexivity. Qed.

Lemma reports_healthy_examples :
  reports_healthy Rejects = false
  /\ reports_healthy Unparseable = false
  /\ reports_healthy (Parsed (Sample.status_json "critical")) = false
  /\ reports_healthy (Parsed (Sample.status_json "minor")) = true
  /\ reports_healthy (Parsed JS.JNull) = false.
Proof. repeat split; reflexivity. Qed.

(* ------------------------------------------------------------------ *)
(** ** More on the health checker and the retry chain *)

Lemma strict_eq_string_true (v : JS.Value) (text : string) :
  JS.strict_eq_string v text = true <-> v = JS.Str text.
Proof.
  split.
  - destruct v as [ | [ | b | q | s | items | fields]]; cbn; try discriminate.
    intro H. apply String.eqb_eq in H. subst. reflexivity.
  - intro H. subst. cbn. apply String.eqb_refl.
Qed.

(** X1.  [checkArkoseStatus] never throws and costs one GET of the status
    page.  It answers false exactly when the fetch rejects, the body is
    not JSON, the body or its status is null or has no status, or the
    indicator is the string critical; every other answer of the status
    page counts as healthy. *)
Theorem checkArkoseStatus_contained (P : Platform) (log : Log) :
  exists healthy,
    checkArkoseStatus P log = (Ret healthy, StatusGET status_url :: log)
    /\ (healthy = false <->
        status_endpoint P (statusCalls log) = Rejects
        \/ status_endpoint P (statusCalls log) = Unparseable
        \/ exists j,
             status_endpoint P (statusCalls log) = Parsed j
             /\ (JS.get_property (JS.Defined j) "status" = None
                 \/ exists st,
                      JS.get_property (JS.Defined j) "status" = Some st
                      /\ (JS.get_property st "indicator" = None
                          \/ JS.get_property st "indicator" = Some (JS.Str "critical")))).
Proof.
  exists (reports_healthy (status_endpoint P (statusCalls log))).
  split; [apply checkArkoseStatus_run | ].
  destruct (status_endpoint P (statusCalls log)) as [ | | j]; cbn [reports_healthy].
  - split; [intros _; left; reflexivity | reflexivity].
  - split; [intros _; right; left; reflexivity | reflexivity].
  - destruct (JS.get_property (JS.Defined j) "status") as [st | ] eqn:Hst.
    + destruct (JS.get_property st "indicator") as [ind | ] eqn:Hind.
      * split.
        -- intro H. apply Bool.negb_false_iff, strict_eq_string_true in H. subst ind.
           right; right. exists j. split; [reflexivity | ].
           right. exists st. split; [exact Hst | right; exact Hind].
        -- intros [H | [H | (j' & Hj & Hcase)]]; try discriminate H.
           inversion Hj; subst j'. rewrite Hst in Hcase.
           destruct Hcase as [H | (st' & Hst' & [H | H])]; try discriminate H.
           ++ inversion Hst'; subst st'. rewrite Hind in H. discriminate H.
           ++ inversion Hst'; subst st'. rewrite Hind in H. inversion H; subst ind.
              reflexivity.
      * split; [ | reflexivity].
        intros _. right; right. exists j. split; [reflexivity | ].
        right. exists st. split; [exact Hst | left; exact Hind].
    + split; [ | reflexivity].
      intros _. right; right. exists j. split; [reflexivity | left; exact Hst].
Qed.

(** X2.  [verifyArkoseToken] never throws: whatever the verify endpoint
    and the status page do, the call returns an outcome (or is still
    retrying when the fuel is spent). *)
Theorem verifyArkoseToken_never_throws (P : Platform) (token : JS.Value)
    (pk sub : string) (max : Z) (fuel : nat) (cur : Z) (log : Log) (e : Error) :
  fst (verifyArkoseToken P fuel token pk sub max cur log) <> Throw e.
Proof.
  revert cur log. induction fuel as [ | fuel IH]; intros cur log.
  - cbn. discriminate.
  - rewrite verifyArkoseToken_step; cbv zeta.
    destruct (attempt (verify_endpoint P (verifyCalls log))); [cbn; discriminate | ].
    destruct (reports_healthy (status_endpoint P (statusCalls log))); [ | cbn; discriminate].
    destruct (cur =? max); [cbn; discriminate | apply IH].
Qed.

Lemma attempt_some (r : Reply) (v : bool) :
  attempt r = Some v -> exists j, r = Parsed j /\ session_solved j = v.
Proof.
  destruct r as [ | | j]; try discriminate.
  intro H. exists j. split; [reflexivity | ].
  destruct j as [ | b | q | s | items | fields];
    try (rewrite attempt_parsed in H; [inversion H; reflexivity | discriminate]);
    try discriminate H.
Qed.

(** X3.  The outcome of [verifyArkoseToken] is sound.  It says verified
    only when the last answer of the verify endpoint carries a truthy
    [session_details.solved], and then it says healthy; it says unhealthy
    only when the last status check failed, and then it says not
    verified. *)
Theorem verifyArkoseToken_outcome_sound (P : Platform) (token : JS.Value)
    (pk sub : string) (max : Z) (fuel : nat) (cur : Z) (log log' : Log)
    (vs : VerifyStatus) :
  verifyArkoseToken P fuel token pk sub max cur log = (Ret vs, log') ->
  (verified vs = true ->
   arkoseStatus vs = true
   /\ exists j, verify_endpoint P (Nat.pred (verifyCalls log')) = Parsed j
                /\ session_solved j = true)
  /\ (arkoseStatus vs = false ->
      verified vs = false
      /\ reports_healthy (status_endpoint P (Nat.pred (statusCalls log'))) = false).
Proof.
  revert cur log. induction fuel as [ | fuel IH]; intros cur log Hrun.
  - cbn in Hrun. discriminate Hrun.
  - rewrite verifyArkoseToken_step in Hrun; cbv zeta in Hrun.
    destruct (attempt (verify_endpoint P (verifyCalls log))) as [v | ] eqn:Hv.
    + inversion Hrun; subst. cbn [verified arkoseStatus].
      split; [ | discriminate].
      intro Htrue. split; [reflexivity | ].
      rewrite verifyCalls_posted. cbn [Nat.pred].
      apply attempt_some in Hv. destruct Hv as (j & Hj & Hs).
      exists j. split; [exact Hj | rewrite Hs; exact Htrue].
    + destruct (reports_healthy (status_endpoint P (statusCalls log))) eqn:Hh.
      * destruct (cur =? max).
        -- inversion Hrun; subst. cbn [verified arkoseStatus].
           split; discriminate.
        -- exact (IH _ _ Hrun).
      * inversion Hrun; subst. cbn [verified arkoseStatus].
        split; [discriminate | ].
        intros _. split; [reflexivity | ].
        rewrite statusCalls_checked, statusCalls_VerifyPOST. cbn [Nat.pred]. exact Hh.
Qed.

Lemma verifyArkoseToken_outcome_sound_witness :
  (verified {| verified := false; arkoseStatus := false |} = true ->
   arkoseStatus {| verified := false; arkoseStatus := false |} = true
   /\ exists j, verify_endpoint Sample.outage 0 = Parsed j /\ session_solved j = true)
  /\ (arkoseStatus {| verified := false; arkoseStatus := false |} = false ->
      verified {| verified := false; arkoseStatus := false |} = false
      /\ reports_healthy (status_endpoint Sample.outage 0) = false).
Proof.
  apply (verifyArkoseToken_outcome_sound Sample.outage Sample.token "key" "verify-api"
           5 6 0 []
           [StatusGET status_url; VerifyPOST (verify_url "verify-api") "key" Sample.token]).
  reflexivity.
Defined.

Lemma verifyCalls_app (a b : Log) : verifyCalls (a ++ b)%list = (verifyCalls a + verifyCalls b)%nat.
Proof. unfold verifyCalls. rewrite filter_app, length_app. reflexivity. Qed.

Lemma statusCalls_app (a b : Log) : statusCalls (a ++ b)%list = (statusCalls a + statusCalls b)%nat.
Proof. unfold statusCalls. rewrite filter_app, length_app. reflexivity. Qed.

(** X4.  Whatever happens, [verifyArkoseToken] only adds to the log POSTs
    to the one verify url with the one private key and the one token, and
    GETs of the status page: it touches nothing else.  The status page is
    asked once after each failed attempt, so the status GETs are as many
    as the POSTs or one fewer. *)
Theorem verifyArkoseToken_log (P : Platform) (token : JS.Value)
    (pk sub : string) (max : Z) (fuel : nat) (cur : Z) (log log' : Log)
    (res : Res VerifyStatus) :
  verifyArkoseToken P fuel token pk sub max cur log = (res, log') ->
  exists ext,
    log' = (ext ++ log)%list
    /\ Forall (fun e => e = VerifyPOST (verify_url sub) pk token \/ e = StatusGET status_url) ext
    /\ (statusCalls ext <= verifyCalls ext <= S (statusCalls ext))%nat.
Proof.
  revert cur log. induction fuel as [ | fuel IH]; intros cur log Hrun.
  - cbn in Hrun. inversion Hrun; subst. exists []. repeat split; [constructor | cbn; lia | cbn; lia].
  - rewrite verifyArkoseToken_step in Hrun; cbv zeta in Hrun.
    assert (Hpost : forall r,
      (r, VerifyPOST (verify_url sub) pk token :: log) = (res, log') ->
      exists ext,
        log' = (ext ++ log)%list
        /\ Forall (fun e => e = VerifyPOST (verify_url sub) pk token \/ e = StatusGET status_url) ext
        /\ (statusCalls ext <= verifyCalls ext <= S (statusCalls ext))%nat).
    { intros r H. inversion H; subst.
      exists [VerifyPOST (verify_url sub) pk token].
      repeat split; [ | cbn; lia | cbn; lia].
      constructor; [left; reflexivity | constructor]. }
    assert (Hcheck : forall r,
      (r, StatusGET status_url :: VerifyPOST (verify_url sub) pk token :: log) = (res, log') ->
      exists ext,
        log' = (ext ++ log)%list
        /\ Forall (fun e => e = VerifyPOST (verify_url sub) pk token \/ e = StatusGET status_url) ext
        /\ (statusCalls ext <= verifyCalls ext <= S (statusCalls ext))%nat).
    { intros r H. inversion H; subst.
      exists [StatusGET status_url; VerifyPOST (verify_url sub) pk token].
      repeat split; [ | cbn; lia | cbn; lia].
      constructor; [right; reflexivity | ].
      constructor; [left; reflexivity | constructor]. }
    destruct (attempt (verify_endpoint P (verifyCalls log))); [exact (Hpost _ Hrun) | ].
    destruct (reports_healthy (status_endpoint P (statusCalls log))); [ | exact (Hcheck _ Hrun)].
    destruct (cur =? max); [exact (Hcheck _ Hrun) | ].
    destruct (IH _ _ Hrun) as (ext & Hlog & Hall & Hcount).
    exists (ext ++ [StatusGET status_url; VerifyPOST (verify_url sub) pk token])%list.
    split; [rewrite <- app_assoc; exact Hlog | ]. split.
    + apply Forall_app. split; [exact Hall | ].
      constructor; [right; reflexivity | ].
      constructor; [left; reflexivity | constructor].
    + rewrite verifyCalls_app, statusCalls_app. cbn. lia.
Qed.

Lemma verifyArkoseToken_log_witness :
  exists ext,
    [StatusGET status_url; VerifyPOST (verify_url "verify-api") "key" Sample.token]
    = (ext ++ [])%list
    /\ Forall (fun e => e = VerifyPOST (verify_url "verify-api") "key" Sample.token
                        \/ e = StatusGET status_url) ext
    /\ (statusCalls ext <= verifyCalls ext <= S (statusCalls ext))%nat.
Proof.
  apply (verifyArkoseToken_log Sample.outage Sample.token "key" "verify-api" 5 6 0 []
           [StatusGET status_url; VerifyPOST (verify_url "verify-api") "key" Sample.token]
           (Ret {| verified := false; arkoseStatus := false |})).
  reflexivity.
Defined.

(** X5.  The retry chain recovers from passing failures.  When the first
    [k] attempts throw while the platform reports healthy and attempt
    [k + 1] gets an answer, with [k] retries within the ceiling, the call
    returns the verdict of that answer with status healthy, after
    [k + 1] POSTs and [k] status GETs. *)
Theorem verifyArkoseToken_recovers (P : Platform) (token : JS.Value)
    (pk sub : string) (max : Z) (k : nat) (cur : Z) (fuel : nat) (log : Log) (v : bool) :
  (forall i, (i < k)%nat -> attempt (verify_endpoint P (verifyCalls log + i)) = None) ->
  (forall i, (i < k)%nat ->
             reports_healthy (status_endpoint P (statusCalls log + i)) = true) ->
  attempt (verify_endpoint P (verifyCalls log + k)) = Some v ->
  Z.of_nat k <= max - cur ->
  (k < fuel)%nat ->
  exists log',
    verifyArkoseToken P fuel token pk sub max cur log
    = (Ret {| verified := v; arkoseStatus := true |}, log')
    /\ verifyCalls log' = (verifyCalls log + k + 1)%nat
    /\ statusCalls log' = (statusCalls log + k)%nat.
Proof.
  revert cur fuel log.
  induction k as [ | k IH]; intros cur fuel log Hfail Hgreen Hok Hroom Hfuel;
    (destruct fuel as [ | fuel]; [lia | ]);
    rewrite verifyArkoseToken_step; cbv zeta.
  - rewrite Nat.add_0_r in Hok. rewrite Hok.
    eexists. split; [reflexivity | ]. rewrite verifyCalls_posted, statusCalls_VerifyPOST. lia.
  - pose proof (Hfail 0%nat ltac:(lia)) as H0. rewrite Nat.add_0_r in H0. rewrite H0.
    pose proof (Hgreen 0%nat ltac:(lia)) as G0. rewrite Nat.add_0_r in G0. rewrite G0.
    replace (cur =? max) with false by (symmetry; apply Z.eqb_neq; lia).
    destruct (IH (cur + 1) fuel
                (StatusGET status_url :: VerifyPOST (verify_url sub) pk token :: log))
      as (log' & Hrun & Hv & Hs).
    + intros i Hi. rewrite verifyCalls_checked, verifyCalls_posted.
      replace (S (verifyCalls log) + i)%nat with (verifyCalls log + S i)%nat by lia.
      apply Hfail. lia.
    + intros i Hi. rewrite statusCalls_checked, statusCalls_VerifyPOST.
      replace (S (statusCalls log) + i)%nat with (statusCalls log + S i)%nat by lia.
      apply Hgreen. lia.
    + rewrite verifyCalls_checked, verifyCalls_posted.
      replace (S (verifyCalls log) + k)%nat with (verifyCalls log + S k)%nat by lia.
      exact Hok.
    + lia.
    + lia.
    + rewrite verifyCalls_checked, verifyCalls_posted in Hv.
      rewrite statusCalls_checked, statusCalls_VerifyPOST in Hs.
      exists log'. split; [exact Hrun | lia].
Qed.

Lemma verifyArkoseToken_recovers_witness :
  exists log',
    verifyArkoseToken
      (Sample.platform
         (fun n => if (n <? 2)%nat then Unparseable else Parsed (Sample.verify_json true))
         (fun _ => Parsed (Sample.status_json "minor"))
         (Sample.site_up Sample.login_page))
      3 Sample.token "key" "verify-api" 2 0 []
    = (Ret {| verified := true; arkoseStatus := true |}, log')
    /\ verifyCalls log' = (verifyCalls [] + 2 + 1)%nat
    /\ statusCalls log' = (statusCalls [] + 2)%nat.
Proof.
  apply (verifyArkoseToken_recovers
           (Sample.platform
              (fun n => if (n <? 2)%nat then Unparseable else Parsed (Sample.verify_json true))
              (fun _ => Parsed (Sample.status_json "minor"))
              (Sample.site_up Sample.login_page))
           Sample.token "key" "verify-api" 2 2 0 3 [] true).
  - intros i Hi. destruct i as [ | [ | i]]; [reflexivity | reflexivity | lia].
  - intros i Hi. reflexivity.
  - reflexivity.
  - lia.
  - lia.
Defined.

(* ------------------------------------------------------------------ *)
(** ** The configuration parsers *)








Lemma lower_char_letter (c : ascii) :
  (JS.lower_char c = "t"%char <-> c = "t"%char \/ c = "T"%char)
  /\ (JS.lower_char c = "r"%char <-> c = "r"%char \/ c = "R"%char)
  /\ (JS.lower_char c = "u"%char <-> c = "u"%char \/ c = "U"%char)
  /\ (JS.lower_char c = "e"%char <-> c = "e"%char \/ c = "E"%char).
Proof.
  destruct c as [[|] [|] [|] [|] [|] [|] [|] [|]];
    repeat split;
    try (intro H; vm_compute in H; discriminate H);
    try (intros _; (left; reflexivity) || (right; reflexivity));
    try (intros [H | H]; discriminate H);
    try (intros _; reflexivity).
Qed.

Lemma toLowerCase_nil (s : string) : JS.toLowerCase s = EmptyString -> s = EmptyString.
Proof. destruct s; [reflexivity | discriminate]. Qed.

(** X7.  [parseBoolean] is true for the four letters of true in any mix
    of upper and lower case, and for nothing else: not for a variable
    that is not set, not for 1 or yes, not for true with a blank around
    it. *)
Theorem parseBoolean_true_iff (value : option string) :
  parseBoolean value = true <->
  exists a b c d,
    value = Some (String a (String b (String c (String d EmptyString))))
    /\ (a = "t" \/ a = "T")%char /\ (b = "r" \/ b = "R")%char
    /\ (c = "u" \/ c = "U")%char /\ (d = "e" \/ d = "E")%char.
Proof.
  unfold parseBoolean. rewrite String.eqb_eq. split.
  - destruct value as [s | ]; [ | discriminate].
    cbn [JS.String_of].
    destruct s as [ | a [ | b [ | c [ | d s]]]]; try discriminate.
    cbn [JS.toLowerCase]. intro H. injection H as Ha Hb Hc Hd Hs.
    apply toLowerCase_nil in Hs. subst s.
    exists a, b, c, d. split; [reflexivity | ].
    split; [apply (proj1 (lower_char_letter a)); exact Ha | ].
    split; [apply (proj1 (proj2 (lower_char_letter b))); exact Hb | ].
    split; [apply (proj1 (proj2 (proj2 (lower_char_letter c)))); exact Hc | ].
    apply (proj2 (proj2 (proj2 (lower_char_letter d)))); exact Hd.
  - intros (a & b & c & d & Hv & Ha & Hb & Hc & Hd). subst value.
    cbn [JS.String_of JS.toLowerCase].
    apply (proj1 (lower_char_letter a)) in Ha.
    apply (proj1 (proj2 (lower_char_letter b))) in Hb.
    apply (proj1 (proj2 (proj2 (lower_char_letter c)))) in Hc.
    apply (proj2 (proj2 (proj2 (lower_char_letter d)))) in Hd.
    rewrite Ha, Hb, Hc, Hd. reflexivity.
Qed.

(* ------------------------------------------------------------------ *)
(** ** More on the cookie extractor *)

Lemma substring_whole (s : string) : String.substring 0 (String.length s) s = s.
Proof. induction s as [ | c s IH]; [reflexivity | cbn; rewrite IH; reflexivity]. Qed.

Lemma append_empty_r (s : string) : s ++ EmptyString = s.
Proof. induction s as [ | c s IH]; [reflexivity | cbn; rewrite IH; reflexivity]. Qed.

(** Passing over [k] characters is splitting what is left after them. *)
Lemma split_go_passes (sep : string) :
  forall (s : string) (k : nat) (cur : string),
    JS.split_go sep k cur s
    = JS.split_go sep 0 cur (String.substring k (String.length s - k) s).
Proof.
  induction s as [ | c s IH]; intros k cur.
  - destruct k; reflexivity.
  - destruct k as [ | k].
    + rewrite Nat.sub_0_r, substring_whole. reflexivity.
    + cbn [JS.split_go]. rewrite IH. reflexivity.
Qed.

(** Splitting at the first occurrence of the separator. *)
Lemma split_go_first (sep : string) :
  sep <> EmptyString ->
  forall (s : string) (n : nat) (cur : string),
    String.index 0 sep s = Some n ->
    JS.split_go sep 0 cur s
    = (JS.rev_string EmptyString cur ++ String.substring 0 n s)
        :: JS.split_go sep 0 EmptyString
             (String.substring (n + String.length sep)
                (String.length s - (n + String.length sep)) s).
Proof.
  intro Hsep. induction s as [ | c s IH]; intros n cur Hn.
  - cbn in Hn. destruct sep; [contradiction | discriminate Hn].
  - cbn [String.index] in Hn. cbn [JS.split_go].
    destruct (String.prefix sep (String c s)) eqn:Hp.
    + inversion Hn; subst n. cbn [String.substring]. rewrite append_empty_r.
      f_equal. rewrite split_go_passes.
      destruct sep as [ | a sep]; [contradiction | ]. reflexivity.
    + destruct (String.index 0 sep s) as [k | ] eqn:Hk; [ | discriminate Hn].
      inversion Hn; subst n. rewrite (IH k (String c cur) eq_refl).
      cbn [JS.rev_string String.substring Nat.add String.length Nat.sub].
      rewrite !rev_string_append. reflexivity.
Qed.

Lemma includes_empty (key : string) :
  key <> EmptyString -> JS.includes EmptyString key = false.
Proof. destruct key; [contradiction | reflexivity]. Qed.

(** X8.  What [getCookie] returns once a piece of the header holds the
    key.  The piece is the first one that holds the key anywhere.  If the
    key followed by the equals sign does not occur in it, the result is
    undefined; otherwise it is the text after the first occurrence, cut
    at the next occurrence when there is one. *)
Theorem getCookie_exact (cookieString cookieKey piece : string) :
  cookieKey <> EmptyString ->
  find (fun cookie => JS.includes cookie cookieKey) (JS.split cookieString "; ")
  = Some piece ->
  getCookie (Some cookieString) cookieKey
  = match String.index 0 (cookieKey ++ "=") piece with
    | None => JS.Undefined
    | Some n =>
        let rest :=
          String.substring (n + String.length (cookieKey ++ "="))
            (String.length piece - (n + String.length (cookieKey ++ "="))) piece in
        match String.index 0 (cookieKey ++ "=") rest with
        | None => JS.Str rest
        | Some m => JS.Str (String.substring 0 m rest)
        end
    end.
Proof.
  intros Hkey Hfind.
  assert (Hsep : cookieKey ++ "=" <> EmptyString) by (destruct cookieKey; discriminate).
  pose proof (find_some _ _ Hfind) as [Hin Hinc].
  assert (Hpiece : String.eqb piece EmptyString = false).
  { apply String.eqb_neq. intro He. subst piece.
    rewrite (includes_empty cookieKey Hkey) in Hinc. discriminate Hinc. }
  assert (Hcs : String.eqb cookieString EmptyString = false).
  { apply String.eqb_neq. intro He. subst cookieString.
    cbn in Hin. destruct Hin as [He | []]. subst piece. discriminate Hpiece. }
  unfold getCookie. cbn [JS.truthy JS.Str]. rewrite Hcs. cbn [negb].
  rewrite Hfind, Hpiece. cbn [negb]. unfold JS.split.
  destruct (String.index 0 (cookieKey ++ "=") piece) as [n | ] eqn:Hn.
  - rewrite (split_go_first (cookieKey ++ "=") Hsep piece n EmptyString Hn). cbv zeta.
    destruct (String.index 0 (cookieKey ++ "=")
                (String.substring (n + String.length (cookieKey ++ "="))
                   (String.length piece - (n + String.length (cookieKey ++ "="))) piece))
      as [m | ] eqn:Hm.
    + rewrite (split_go_first (cookieKey ++ "=") Hsep _ m EmptyString Hm). reflexivity.
    + rewrite (split_go_no_match (cookieKey ++ "=") _ EmptyString Hm). reflexivity.
  - rewrite (split_go_no_match (cookieKey ++ "=") piece EmptyString Hn). reflexivity.
Qed.

Lemma getCookie_exact_witness :
  getCookie (Some "theme=dark; arkoseToken=abc.123; lang=en") "arkoseToken"
  = JS.Str "abc.123".
Proof.
  exact (getCookie_exact "theme=dark; arkoseToken=abc.123; lang=en" "arkoseToken"
           "arkoseToken=abc.123" ltac:(discriminate) eq_refl).
Defined.

(** X9.  [getCookie] returns null exactly when there is no Cookie header
    or no piece of it holds the key; a piece that holds the key without
    the equals sign gives undefined, not null. *)
Theorem getCookie_null_iff (cookieString : option string) (cookieKey : string) :
  cookieKey <> EmptyString ->
  (getCookie cookieString cookieKey = JS.Null <->
   cookieString = None
   \/ exists cs, cookieString = Some cs
                 /\ forall piece, In piece (JS.split cs "; ") ->
                                  JS.includes piece cookieKey = false).
Proof.
  intro Hkey. split.
  - intro Hnull. destruct cookieString as [cs | ]; [right | left; reflexivity].
    exists cs. split; [reflexivity | ].
    destruct (find (fun cookie => JS.includes cookie cookieKey) (JS.split cs "; "))
      as [piece | ] eqn:Hfind.
    + exfalso.
      pose proof (find_some _ _ Hfind) as [Hin Hinc].
      assert (Hpiece : String.eqb piece EmptyString = false).
      { apply String.eqb_neq. intro He. subst piece.
        rewrite (includes_empty cookieKey Hkey) in Hinc. discriminate Hinc. }
      assert (Hcs : String.eqb cs EmptyString = false).
      { apply String.eqb_neq. intro He. subst cs.
        cbn in Hin. destruct Hin as [He | []]. subst piece. discriminate Hpiece. }
      unfold getCookie in Hnull. cbn [JS.truthy JS.Str] in Hnull.
      rewrite Hcs in Hnull. cbn [negb] in Hnull.
      rewrite Hfind, Hpiece in Hnull. cbn [negb] in Hnull.
      unfold JS.second in Hnull.
      destruct (JS.split piece (cookieKey ++ "=")) as [ | a [ | v rest]];
        discriminate Hnull.
    + intros piece Hin.
      exact (find_none _ _ Hfind piece Hin).
  - intros [Hnone | (cs & Hcs & Hall)]; subst cookieString.
    + reflexivity.
    + apply getCookie_no_piece. exact Hall.
Qed.

Lemma getCookie_null_iff_witness :
  getCookie (Some "theme=dark; lang=en") "arkoseToken" = JS.Null <->
  Some "theme=dark; lang=en" = None
  \/ exists cs, Some "theme=dark; lang=en" = Some cs
                /\ forall piece, In piece (JS.split cs "; ") ->
                                 JS.includes piece "arkoseToken" = false.
Proof.
  apply (getCookie_null_iff (Some "theme=dark; lang=en") "arkoseToken").
  discriminate.
Defined.

(* ------------------------------------------------------------------ *)
(** ** The identity hint when the page holds the marker *)

Lemma string_length_append (a b : string) :
  String.length (a ++ b) = (String.length a + String.length b)%nat.
Proof. induction a as [ | c a IH]; [reflexivity | cbn; rewrite IH; reflexivity]. Qed.

Lemma string_append_assoc (a b c : string) : (a ++ b) ++ c = a ++ b ++ c.
Proof. induction a as [ | x a IH]; [reflexivity | cbn; rewrite IH; reflexivity]. Qed.

Lemma index_past (needle a b : string) (n : nat) :
  String.index (String.length a + n) needle (a ++ b)
  = option_map (Nat.add (String.length a)) (String.index n needle b).
Proof.
  induction a as [ | c a IH].
  - cbn. destruct (String.index n needle b); reflexivity.
  - cbn [String.length Nat.add String.append String.index]. rewrite IH.
    destruct (String.index n needle b); reflexivity.
Qed.

Lemma prefix_char (a c : ascii) (s : string) :
  String.prefix (String a EmptyString) (String c s)
  = if Ascii.ascii_dec a c then true else false.
Proof.
  cbn [String.prefix]. destruct (Ascii.ascii_dec a c); [destruct s; reflexivity | reflexivity].
Qed.

Lemma index_first_quote (name rest : string) :
  String.index 0 JS.dquote name = None ->
  String.index 0 JS.dquote (name ++ JS.dquote ++ rest) = Some (String.length name).
Proof.
  induction name as [ | c name IH]; intro Hnone.
  - destruct rest; reflexivity.
  - cbn [String.index] in Hnone.
    destruct (String.prefix JS.dquote (String c name)) eqn:Hp; [discriminate Hnone | ].
    destruct (String.index 0 JS.dquote name) as [k | ]; [discriminate Hnone | ].
    cbn [String.append String.index String.length].
    assert (Hp' : String.prefix JS.dquote (String c (name ++ JS.dquote ++ rest)) = false).
    { unfold JS.dquote in Hp |- *. rewrite prefix_char in Hp. rewrite prefix_char.
      exact Hp. }
    rewrite Hp', (IH eq_refl). reflexivity.
Qed.

Lemma substring_past (a b : string) (m : nat) :
  String.substring (String.length a) m (a ++ b) = String.substring 0 m b.
Proof. induction a as [ | c a IH]; [reflexivity | cbn; exact IH]. Qed.

Lemma substring_front (a b : string) :
  String.substring 0 (String.length a) (a ++ b) = a.
Proof. induction a as [ | c a IH]; [destruct b; reflexivity | cbn; rewrite IH; reflexivity]. Qed.

(** The hint of a page whose first marker is followed by a name and a
    double quote. *)
Lemma username_of_body_marked (pre name rest : string) :
  JS.search (pre ++ username_marker ++ name ++ JS.dquote ++ rest) username_marker
  = Z.of_nat (String.length pre) ->
  String.index 0 JS.dquote name = None ->
  username_of_body (pre ++ username_marker ++ name ++ JS.dquote ++ rest) = name.
Proof.
  intros Hsearch Hname. unfold username_of_body. rewrite Hsearch.
  unfold JS.indexOf, JS.substring.
  rewrite <- (string_append_assoc pre username_marker).
  replace (Z.to_nat (Z.of_nat (String.length pre) + 23))
    with (String.length (pre ++ username_marker) + 0)%nat
    by (rewrite string_length_append; change (String.length username_marker) with 23%nat; lia).
  rewrite index_past, (index_first_quote name rest Hname). cbn [option_map]. cbv zeta.
  assert (Hlen : String.length ((pre ++ username_marker) ++ name ++ JS.dquote ++ rest)
                 = (String.length pre + 23 + String.length name + 1 + String.length rest)%nat).
  { rewrite !string_length_append.
    change (String.length username_marker) with 23%nat.
    change (String.length JS.dquote) with 1%nat. lia. }
  rewrite Hlen.
  assert (Hp : String.length (pre ++ username_marker) = (String.length pre + 23)%nat).
  { rewrite string_length_append. reflexivity. }
  rewrite Hp.
  replace (Z.to_nat
             (Z.min
                (Z.min (Z.max (Z.of_nat (String.length pre) + 23) 0)
                   (Z.of_nat (String.length pre + 23 + String.length name + 1
                              + String.length rest)))
                (Z.min (Z.max (Z.of_nat (String.length pre + 23 + String.length name)) 0)
                   (Z.of_nat (String.length pre + 23 + String.length name + 1
                              + String.length rest)))))
    with (String.length (pre ++ username_marker)) by (rewrite Hp; lia).
  rewrite substring_past.
  match goal with
  | |- String.substring 0 ?m _ = _ =>
      replace m with (String.length name) by lia
  end.
  apply substring_front.
Qed.

(** X10.  On a GET request with data exchange on, when the first marker
    of the page is followed by a name free of double quotes and then a
    double quote, the hint handed to [injectArkose] is that name. *)
Theorem GET_hint_with_marker (P : Platform) (fuel : nat) (request : Request)
    (env : Env.t) (log : Log) (r1 : Response) (pre name rest : string) :
  method request = "GET" ->
  usingDX (configure P env) = true ->
  origin P (originCalls log) = OriginResponds r1 ->
  body r1 = pre ++ username_marker ++ name ++ JS.dquote ++ rest ->
  JS.search (body r1) username_marker = Z.of_nat (String.length pre) ->
  String.index 0 JS.dquote name = None ->
  fetch P fuel request env log
  = (res <- fetch_origin P request ;;
     injectArkose P (configure P env) res (Some name)) (OriginFetch request :: log).
Proof.
  intros Hm HDX Hr Hbody Hsearch Hname.
  unfold fetch, handle. rewrite Hm, HDX. cbn [String.eqb Ascii.eqb Bool.eqb].
  unfold bind at 1. rewrite fetch_origin_run, Hr.
  rewrite Hbody in Hsearch |- *.
  rewrite (username_of_body_marked pre name rest Hsearch Hname). reflexivity.
Qed.

Lemma GET_hint_with_marker_witness :
  fetch
    (Sample.platform (fun _ => Rejects) (fun _ => Rejects)
       (Sample.site_up
          {| status := 200; headers := [];
             body := "<input " ++ username_marker ++ "ann@example.com" ++ JS.dquote ++ ">" |}))
    1 Sample.get_login (Sample.env "true" "true" "false" "2") []
  = (res <- fetch_origin
              (Sample.platform (fun _ => Rejects) (fun _ => Rejects)
                 (Sample.site_up
                    {| status := 200; headers := [];
                       body := "<input " ++ username_marker ++ "ann@example.com"
                               ++ JS.dquote ++ ">" |}))
              Sample.get_login ;;
     injectArkose
       (Sample.platform (fun _ => Rejects) (fun _ => Rejects)
          (Sample.site_up
             {| status := 200; headers := [];
                body := "<input " ++ username_marker ++ "ann@example.com"
                        ++ JS.dquote ++ ">" |}))
       (configure
          (Sample.platform (fun _ => Rejects) (fun _ => Rejects)
             (Sample.site_up
                {| status := 200; headers := [];
                   body := "<input " ++ username_marker ++ "ann@example.com"
                           ++ JS.dquote ++ ">" |}))
          (Sample.env "true" "true" "false" "2"))
       res (Some "ann@example.com")) [OriginFetch Sample.get_login].
Proof.
  apply (GET_hint_with_marker _ 1 Sample.get_login (Sample.env "true" "true" "false" "2") []
           {| status := 200; headers := [];
              body := "<input " ++ username_marker ++ "ann@example.com" ++ JS.dquote ++ ">" |}
           "<input " "ann@example.com" ">");
    reflexivity.
Defined.

(* ------------------------------------------------------------------ *)
(** ** What the handler calls, and when *)

Lemma injectArkose_calls (P : Platform) (cfg : Config) (r : Response)
    (username : option string) (log log' : Log) (res : Res EdgeResponse) :
  injectArkose P cfg r username log = (res, log') ->
  verifyCalls log' = verifyCalls log
  /\ statusCalls log' = statusCalls log
  /\ originCalls log' = originCalls log
  /\ (forall resp, res = Ret resp -> exists script, resp = Rewritten r script).
Proof.
  unfold injectArkose. destruct (usingDX cfg).
  - unfold bind at 1, dataExchangeHandler, bind at 1, now, bind at 1, encrypt,
      bind at 1, random_iv.
    match goal with
    | |- context [aes_gcm_encrypt P ?k ?i ?d] => destruct (aes_gcm_encrypt P k i d)
    end; intro H; inversion H; subst;
      (repeat split; try reflexivity); intros resp Hr; inversion Hr.
    eexists; reflexivity.
  - intro H. inversion H; subst. repeat split; try reflexivity.
    intros resp Hr. inversion Hr. eexists; reflexivity.
Qed.

Lemma serve_origin_calls (P : Platform) (cfg : Config) (request : Request)
    (log log' : Log) (res : Res EdgeResponse) :
  serve_origin P cfg request log = (res, log') ->
  verifyCalls log' = verifyCalls log
  /\ statusCalls log' = statusCalls log
  /\ originCalls log' = S (originCalls log)
  /\ (forall resp, res = Ret resp ->
      exists r, resp = Passthrough r \/ exists script, resp = Rewritten r script).
Proof.
  unfold serve_origin, bind. rewrite fetch_origin_run.
  destruct (origin P (originCalls log)) as [ | r].
  - intro H. inversion H; subst. repeat split; try reflexivity.
    intros resp Hr. discriminate Hr.
  - unfold checkResponse. destruct (status r =? 302).
    + intro H. inversion H; subst. repeat split; try reflexivity.
      intros resp Hr. inversion Hr. exists r. left; reflexivity.
    + intro H. apply injectArkose_calls in H. destruct H as (Hv & Hs & Ho & Hres).
      repeat split; [exact Hv | exact Hs | rewrite Ho; reflexivity | ].
      intros resp Hr. destruct (Hres resp Hr) as (script & Hscript).
      exists r. right. exists script. exact Hscript.
Qed.

(** X11.  A GET request is never verified: the handler makes no POST to
    the verify endpoint and no status GET, whatever cookie the request
    carries.  It fetches the origin once when data exchange is off, and
    once or twice when it is on. *)
Theorem GET_never_verifies (P : Platform) (fuel : nat) (request : Request)
    (env : Env.t) (log log' : Log) (res : Res EdgeResponse) :
  method request = "GET" ->
  fetch P fuel request env log = (res, log') ->
  verifyCalls log' = verifyCalls log
  /\ statusCalls log' = statusCalls log
  /\ (originCalls log < originCalls log' <= originCalls log + 2)%nat
  /\ (usingDX (configure P env) = false -> originCalls log' = S (originCalls log)).
Proof.
  intros Hm Hrun. unfold fetch, handle in Hrun. rewrite Hm in Hrun.
  cbn [String.eqb Ascii.eqb Bool.eqb] in Hrun.
  assert (Hone : forall l u,
    (res0 <- fetch_origin P request ;; injectArkose P (configure P env) res0 u) l
    = (res, log') ->
    verifyCalls log' = verifyCalls l /\ statusCalls log' = statusCalls l
    /\ originCalls log' = S (originCalls l)).
  { intros l u H. unfold bind in H. rewrite fetch_origin_run in H.
    destruct (origin P (originCalls l)) as [ | r].
    - inversion H; subst. repeat split; reflexivity.
    - apply injectArkose_calls in H. destruct H as (Hv & Hs & Ho & _).
      repeat split; [exact Hv | exact Hs | rewrite Ho; reflexivity]. }
  destruct (usingDX (configure P env)).
  - unfold bind at 1 in Hrun. rewrite fetch_origin_run in Hrun.
    destruct (origin P (originCalls log)) as [ | r1].
    + inversion Hrun; subst. repeat split; try reflexivity; try discriminate.
      * rewrite originCalls_fetched. lia.
      * rewrite originCalls_fetched. lia.
    + apply Hone in Hrun. destruct Hrun as (Hv & Hs & Ho).
      rewrite originCalls_fetched in Ho.
      repeat split; [exact Hv | exact Hs | lia | lia | discriminate].
  - apply Hone in Hrun. destruct Hrun as (Hv & Hs & Ho).
    repeat split; [exact Hv | exact Hs | lia | lia | intros _; exact Ho].
Qed.

Lemma GET_never_verifies_witness :
  verifyCalls [OriginFetch Sample.get_login] = verifyCalls []
  /\ statusCalls [OriginFetch Sample.get_login] = statusCalls []
  /\ (originCalls [] < originCalls [OriginFetch Sample.get_login] <= originCalls [] + 2)%nat
  /\ (usingDX (configure Sample.verify_down (Sample.env "false" "true" "false" "2")) = false ->
      originCalls [OriginFetch Sample.get_login] = S (originCalls [])).
Proof.
  apply (GET_never_verifies Sample.verify_down 1 Sample.get_login
           (Sample.env "false" "true" "false" "2") [] [OriginFetch Sample.get_login]
           (Ret (Rewritten Sample.login_page
                   (scriptTemplate
                      (configure Sample.verify_down (Sample.env "false" "true" "false" "2"))
                      (BlobString EmptyString))))).
  - reflexivity.
  - reflexivity.
Defined.

(** The two ways a non-GET request goes. *)
Lemma handle_non_GET (P : Platform) (cfg : Config) (fuel : nat) (request : Request)
    (log : Log) :
  method request <> "GET" ->
  (JS.truthy (getCookie (cookieHeader request) (arkoseCookieName cfg)) = false
   /\ handle P cfg fuel request log
      = if tokenEnforcement cfg
        then (Ret (Redirect (errorUrl cfg) 301), log)
        else serve_origin P cfg request log)
  \/ (exists tok,
        getCookie (cookieHeader request) (arkoseCookieName cfg) = JS.Str tok
        /\ tok <> EmptyString
        /\ handle P cfg fuel request log
           = match verifyArkoseToken P fuel (JS.Str tok) (privateKey cfg)
                     (verifySubdomain cfg) (verifyMaxRetryCount cfg) 0 log with
             | (Ret vs, log1) =>
                 if verified vs then serve_origin P cfg request log1
                 else if negb (arkoseStatus vs) && failOpen cfg
                      then serve_origin P cfg request log1
                      else if tokenEnforcement cfg
                           then (Ret (Redirect (errorUrl cfg) 301), log1)
                           else serve_origin P cfg request log1
             | (Throw e, log1) => (Throw e, log1)
             | (OutOfFuel, log1) => (OutOfFuel, log1)
             end).
Proof.
  intro Hm.
  assert (Hfalsy : JS.truthy (getCookie (cookieHeader request) (arkoseCookieName cfg)) = false ->
                   JS.truthy (getCookie (cookieHeader request) (arkoseCookieName cfg)) = false
                   /\ handle P cfg fuel request log
                      = if tokenEnforcement cfg
                        then (Ret (Redirect (errorUrl cfg) 301), log)
                        else serve_origin P cfg request log).
  { intro Hc. split; [exact Hc | exact (handle_no_token P cfg fuel request log Hm Hc)]. }
  destruct (getCookie_cases (cookieHeader request) (arkoseCookieName cfg))
    as [Hc | [Hc | [v Hc]]].
  1, 2: left; apply Hfalsy; rewrite Hc; reflexivity.
  destruct (String.eqb v EmptyString) eqn:Hv.
  - left. apply Hfalsy. rewrite Hc. cbn. rewrite Hv. reflexivity.
  - apply String.eqb_neq in Hv. right. exists v.
    split; [exact Hc | ]. split; [exact Hv | ].
    exact (handle_token P cfg fuel request log v Hm Hc Hv).
Qed.

(** X12.  A non-GET request without a token is never verified: no POST
    to the verify endpoint, no status GET.  With enforcement off it goes
    to the origin all the same, unverified. *)
Theorem no_token_never_verifies (P : Platform) (fuel : nat) (request : Request)
    (env : Env.t) (log log' : Log) (res : Res EdgeResponse) :
  method request <> "GET" ->
  JS.truthy (getCookie (cookieHeader request) (arkoseCookieName (configure P env))) = false ->
  fetch P fuel request env log = (res, log') ->
  verifyCalls log' = verifyCalls log
  /\ statusCalls log' = statusCalls log
  /\ (tokenEnforcement (configure P env) = false ->
      originCalls log' = S (originCalls log)).
Proof.
  intros Hm Hc Hrun. unfold fetch in Hrun.
  rewrite (handle_no_token P (configure P env) fuel request log Hm Hc) in Hrun.
  destruct (tokenEnforcement (configure P env)).
  - inversion Hrun; subst. repeat split; try reflexivity. discriminate.
  - apply serve_origin_calls in Hrun. destruct Hrun as (Hv & Hs & Ho & _).
    repeat split; [exact Hv | exact Hs | intros _; exact Ho].
Qed.

Lemma no_token_never_verifies_witness :
  verifyCalls [OriginFetch (Sample.post_login (Some "theme=dark"))] = verifyCalls []
  /\ statusCalls [OriginFetch (Sample.post_login (Some "theme=dark"))] = statusCalls []
  /\ (tokenEnforcement (configure Sample.verify_down (Sample.env "false" "false" "false" "2"))
      = false ->
      originCalls [OriginFetch (Sample.post_login (Some "theme=dark"))] = S (originCalls [])).
Proof.
  apply (no_token_never_verifies Sample.verify_down 1
           (Sample.post_login (Some "theme=dark"))
           (Sample.env "false" "false" "false" "2") []
           [OriginFetch (Sample.post_login (Some "theme=dark"))]
           (Ret (Rewritten Sample.login_page
                   (scriptTemplate
                      (configure Sample.verify_down (Sample.env "false" "false" "false" "2"))
                      (BlobString EmptyString))))).
  - discriminate.
  - reflexivity.
  - reflexivity.
Defined.



(** X14.  A non-GET request reaches the origin at most once, however the
    handler ends. *)
Theorem non_GET_fetches_origin_at_most_once (P : Platform) (fuel : nat)
    (request : Request) (env : Env.t) (log log' : Log) (res : Res EdgeResponse) :
  method request <> "GET" ->
  fetch P fuel request env log = (res, log') ->
  (originCalls log <= originCalls log' <= S (originCalls log))%nat.
Proof.
  intros Hm Hrun. unfold fetch in Hrun.
  assert (Hserve : forall l,
    originCalls l = originCalls log ->
    serve_origin P (configure P env) request l = (res, log') ->
    (originCalls log <= originCalls log' <= S (originCalls log))%nat).
  { intros l Hl H. apply serve_origin_calls in H. destruct H as (_ & _ & Ho & _). lia. }
  destruct (handle_non_GET P (configure P env) fuel request log Hm)
    as [[_ Heq] | (tok & _ & _ & Heq)]; rewrite Heq in Hrun; clear Heq.
  - destruct (tokenEnforcement (configure P env)); [ | exact (Hserve log eq_refl Hrun)].
    inversion Hrun; subst. lia.
  - destruct (verifyArkoseToken P fuel (JS.Str tok) (privateKey (configure P env))
                (verifySubdomain (configure P env))
                (verifyMaxRetryCount (configure P env)) 0 log)
      as [[vs | e | ] log1] eqn:Hverify;
      pose proof (verifyArkoseToken_originCalls P _ _ _ _ fuel 0 log log1 _ Hverify) as Hsame;
      try (inversion Hrun; subst; lia).
    destruct (verified vs); [exact (Hserve log1 Hsame Hrun) | ].
    destruct (negb (arkoseStatus vs) && failOpen (configure P env));
      [exact (Hserve log1 Hsame Hrun) | ].
    destruct (tokenEnforcement (configure P env)); [ | exact (Hserve log1 Hsame Hrun)].
    inversion Hrun; subst. lia.
Qed.

Lemma non_GET_fetches_origin_at_most_once_witness :
  (originCalls []
   <= originCalls
        [OriginFetch (Sample.post_login (Some "arkoseToken=abc.123"));
         VerifyPOST (verify_url "verify-api") "22222222-2222-2222-2222-222222222222"
           (JS.Str "abc.123")]
   <= S (originCalls []))%nat.
Proof.
  apply (non_GET_fetches_origin_at_most_once (Sample.verify_says true Sample.found) 1
           (Sample.post_login (Some "arkoseToken=abc.123"))
           (Sample.env "false" "true" "false" "2") []
           [OriginFetch (Sample.post_login (Some "arkoseToken=abc.123"));
            VerifyPOST (verify_url "verify-api") "22222222-2222-2222-2222-222222222222"
              (JS.Str "abc.123")]
           (Ret (Passthrough Sample.found))).
  - discriminate.
  - reflexivity.
Defined.

(* ------------------------------------------------------------------ *)
(** ** End to end *)

Lemma originCalls_VerifyPOST_same (u k : string) (t : JS.Value) (log : Log) :
  originCalls (VerifyPOST u k t :: log) = originCalls log.
Proof. reflexivity. Qed.

Lemma originCalls_StatusGET_same (u : string) (log : Log) :
  originCalls (StatusGET u :: log) = originCalls log.
Proof. reflexivity. Qed.

Lemma session_solved_not_null (j : JS.JSON) : session_solved j = true -> j <> JS.JNull.
Proof. intros H He. subst j. discriminate H. Qed.

(** X15.  A non-GET request whose token the verify endpoint confirms at
    the first attempt is served: one POST, no status GET, one fetch of
    the origin, and the origin's response goes through [checkResponse],
    whatever enforcement and fail-open are set to. *)
Theorem verified_request_served (P : Platform) (fuel : nat) (request : Request)
    (env : Env.t) (log : Log) (tok : string) (j : JS.JSON) (r : Response) :
  method request <> "GET" ->
  getCookie (cookieHeader request) (arkoseCookieName (configure P env)) = JS.Str tok ->
  tok <> EmptyString ->
  verify_endpoint P (verifyCalls log) = Parsed j ->
  session_solved j = true ->
  origin P (originCalls log) = OriginResponds r ->
  fetch P (S fuel) request env log
  = checkResponse P (configure P env) r
      (OriginFetch request
         :: VerifyPOST (verify_url (verifySubdomain (configure P env)))
              (Env.privateKey env) (JS.Str tok)
         :: log).
Proof.
  intros Hm Hc Ht Hj Hs Hr. unfold fetch.
  rewrite (handle_token P (configure P env) (S fuel) request log tok Hm Hc Ht).
  rewrite verifyArkoseToken_step; cbv zeta.
  rewrite Hj, (attempt_parsed j (session_solved_not_null j Hs)), Hs.
  cbn [verified]. unfold serve_origin, bind. rewrite fetch_origin_run.
  rewrite originCalls_VerifyPOST_same, Hr. reflexivity.
Qed.

Lemma verified_request_served_witness :
  fetch (Sample.verify_says true Sample.login_page) 1
    (Sample.post_login (Some "arkoseToken=abc.123"))
    (Sample.env "false" "true" "false" "2") []
  = checkResponse (Sample.verify_says true Sample.login_page)
      (configure (Sample.verify_says true Sample.login_page)
         (Sample.env "false" "true" "false" "2"))
      Sample.login_page
      [OriginFetch (Sample.post_login (Some "arkoseToken=abc.123"));
       VerifyPOST (verify_url "verify-api") "22222222-2222-2222-2222-222222222222"
         (JS.Str "abc.123")].
Proof.
  apply (verified_request_served (Sample.verify_says true Sample.login_page) 0
           (Sample.post_login (Some "arkoseToken=abc.123"))
           (Sample.env "false" "true" "false" "2") [] "abc.123"
           (Sample.verify_json true) Sample.login_page).
  - discriminate.
  - reflexivity.
  - discriminate.
  - reflexivity.
  - reflexivity.
  - reflexivity.
Defined.





(* ------------------------------------------------------------------ *)
(** ** Data exchange *)

(** [injectArkose] with data exchange on: one read of the clock, one of
    the random source, then the cipher decides. *)
Lemma injectArkose_with_DX (P : Platform) (cfg : Config) (r : Response)
    (username : option string) (log : Log) :
  usingDX cfg = true ->
  injectArkose P cfg r username log
  = match aes_gcm_encrypt P (secretKey cfg) (getRandomValues P (randomReads log))
            (JSON_stringify {| timestamp := clock P (clockReads log);
                               email := username; app := "web-login" |}) with
    | Some ciphertext =>
        (Ret (Rewritten r
                (scriptTemplate cfg
                   (BlobObject (base64 P (getRandomValues P (randomReads log))
                                ++ "." ++ base64 P ciphertext)))),
         RandomBytes :: ClockRead :: log)
    | None => (Throw OperationError, RandomBytes :: ClockRead :: log)
    end.
Proof.
  intro HDX. unfold injectArkose. rewrite HDX.
  unfold bind at 1, dataExchangeHandler, bind at 1, now, bind at 1, encrypt,
    bind at 1, random_iv.
  change (randomReads (ClockRead :: log)) with (randomReads log).
  destruct (aes_gcm_encrypt P (secretKey cfg) (getRandomValues P (randomReads log)) _);
    reflexivity.
Qed.


(** X19.  A secret key the cipher rejects breaks every GET when data
    exchange is on: after both fetches of the origin have succeeded the
    handler throws, and no response is returned. *)
Theorem GET_throws_when_cipher_rejects (P : Platform) (fuel : nat) (request : Request)
    (env : Env.t) (log : Log) (r1 r2 : Response) :
  method request = "GET" ->
  usingDX (configure P env) = true ->
  origin P (originCalls log) = OriginResponds r1 ->
  origin P (S (originCalls log)) = OriginResponds r2 ->
  (forall iv data,
     aes_gcm_encrypt P (base64_decode P (Env.secretKeyBase64 env)) iv data = None) ->
  fetch P fuel request env log
  = (Throw OperationError,
     RandomBytes :: ClockRead :: OriginFetch request :: OriginFetch request :: log).
Proof.
  intros Hm HDX Hr1 Hr2 Hreject. unfold fetch, handle. rewrite Hm, HDX.
  cbn [String.eqb Ascii.eqb Bool.eqb].
  unfold bind at 1. rewrite fetch_origin_run, Hr1.
  unfold bind at 1. rewrite fetch_origin_run, originCalls_fetched, Hr2.
  rewrite (injectArkose_with_DX P (configure P env) r2 _ _ HDX).
  change (secretKey (configure P env)) with (base64_decode P (Env.secretKeyBase64 env)).
  rewrite Hreject. reflexivity.
Qed.


Lemma GET_throws_when_cipher_rejects_witness :
  fetch
    {| verify_endpoint := fun _ => Rejects;
       status_endpoint := fun _ => Rejects;
       origin := Sample.site_up Sample.login_page;
       clock := fun _ => 0;
       getRandomValues := fun _ => repeat x00 12;
       aes_gcm_encrypt := fun _ _ _ => None;
       base64 := Sample.text_of_bytes;
       base64_decode := list_byte_of_string |}
    1 Sample.get_login (Sample.env "true" "true" "false" "2") []
  = (Throw OperationError,
     [RandomBytes; ClockRead; OriginFetch Sample.get_login; OriginFetch Sample.get_login]).
Proof.
  apply (GET_throws_when_cipher_rejects
           {| verify_endpoint := fun _ => Rejects;
              status_endpoint := fun _ => Rejects;
              origin := Sample.site_up Sample.login_page;
              clock := fun _ => 0;
              getRandomValues := fun _ => repeat x00 12;
              aes_gcm_encrypt := fun _ _ _ => None;
              base64 := Sample.text_of_bytes;
              base64_decode := list_byte_of_string |}
           1 Sample.get_login (Sample.env "true" "true" "false" "2") []
           Sample.login_page Sample.login_page).
  - reflexivity.
  - reflexivity.
  - reflexivity.
  - reflexivity.
  - intros iv data. reflexivity.
Defined.

Lemma index_first_char (ch : ascii) (a rest : string) :
  String.index 0 (String ch EmptyString) a = None ->
  String.index 0 (String ch EmptyString) (a ++ String ch rest) = Some (String.length a).
Proof.
  induction a as [ | c a IH]; intro Hnone.
  - cbn [String.append String.index String.length]. rewrite prefix_char.
    destruct (Ascii.ascii_dec ch ch) as [_ | Hne]; [reflexivity | contradiction].
  - cbn [String.index] in Hnone.
    destruct (String.prefix (String ch EmptyString) (String c a)) eqn:Hp;
      [discriminate Hnone | ].
    destruct (String.index 0 (String ch EmptyString) a) as [k | ]; [discriminate Hnone | ].
    cbn [String.append String.index String.length].
    rewrite prefix_char in Hp. rewrite prefix_char, Hp, (IH eq_refl). reflexivity.
Qed.

(** X20.  The encoded blob comes apart again.  When the base64 texts hold
    no dot, as the base64 alphabet has none, splitting what [encode] made
    at the dot gives back the text of the iv and the text of the
    ciphertext. *)
Theorem encode_splits_at_dot (P : Platform) (iv ciphertext : list byte) :
  String.index 0 "." (base64 P iv) = None ->
  String.index 0 "." (base64 P ciphertext) = None ->
  JS.split (encode P iv ciphertext) "." = [base64 P iv; base64 P ciphertext].
Proof.
  intros Hiv Hct. unfold encode, JS.split.
  change ("." ++ base64 P ciphertext) with (String "." (base64 P ciphertext)).
  rewrite (split_go_first "." ltac:(discriminate) _ (String.length (base64 P iv)) EmptyString
             (index_first_char "." (base64 P iv) (base64 P ciphertext) Hiv)).
  cbn [JS.rev_string String.append]. rewrite substring_front.
  change (String "." (base64 P ciphertext)) with ("." ++ base64 P ciphertext).
  rewrite <- string_append_assoc.
  replace (String.length (base64 P iv) + String.length ".")%nat
    with (String.length (base64 P iv ++ ".")) by (rewrite string_length_append; reflexivity).
  rewrite substring_past.
  replace (String.length ((base64 P iv ++ ".") ++ base64 P ciphertext)
           - String.length (base64 P iv ++ "."))%nat
    with (String.length (base64 P ciphertext)) by (rewrite !string_length_append; lia).
  rewrite substring_whole, (split_go_no_match "." _ EmptyString Hct). reflexivity.
Qed.

Lemma encode_splits_at_dot_witness :
  JS.split (encode Sample.verify_down (repeat x00 12) [x41; x42]) "."
  = [base64 Sample.verify_down (repeat x00 12); base64 Sample.verify_down [x41; x42]].
Proof.
  apply (encode_splits_at_dot Sample.verify_down (repeat x00 12) [x41; x42]); reflexivity.
Defined.

Lemma handle_GET_quiet (P : Platform) (cfg : Config) (fuel : nat) (request : Request)
    (log log' : Log) (res : Res EdgeResponse) :
  method request = "GET" ->
  handle P cfg fuel request log = (res, log') ->
  verifyCalls log' = verifyCalls log /\ statusCalls log' = statusCalls log.
Proof.
  intros Hm Hrun. unfold handle in Hrun. rewrite Hm in Hrun.
  cbn [String.eqb Ascii.eqb Bool.eqb] in Hrun.
  assert (Hone : forall l u,
    (res0 <- fetch_origin P request ;; injectArkose P cfg res0 u) l = (res, log') ->
    verifyCalls log' = verifyCalls l /\ statusCalls log' = statusCalls l).
  { intros l u H. unfold bind in H. rewrite fetch_origin_run in H.
    destruct (origin P (originCalls l)) as [ | r].
    - inversion H; subst. split; reflexivity.
    - apply injectArkose_calls in H. destruct H as (Hv & Hs & _). split; assumption. }
  destruct (usingDX cfg); [ | exact (Hone _ _ Hrun)].
  unfold bind at 1 in Hrun. rewrite fetch_origin_run in Hrun.
  destruct (origin P (originCalls log)) as [ | r1].
  - inversion Hrun; subst. split; reflexivity.
  - apply Hone in Hrun. exact Hrun.
Qed.

(** X21.  A retry ceiling of 0, which is what a variable that is not set
    or does not parse gives, means no retry: whatever the request, the
    handler makes at most one POST to the verify endpoint and at most one
    status GET. *)
Theorem zero_ceiling_never_retries (P : Platform) (fuel : nat) (request : Request)
    (env : Env.t) (log log' : Log) (res : Res EdgeResponse) :
  verifyMaxRetryCount (configure P env) = 0 ->
  fetch P (S fuel) request env log = (res, log') ->
  (verifyCalls log' <= S (verifyCalls log))%nat
  /\ (statusCalls log' <= S (statusCalls log))%nat.
Proof.
  intros Hzero Hrun. unfold fetch in Hrun.
  destruct (String.eqb (method request) "GET") eqn:Hm.
  - apply String.eqb_eq in Hm.
    destruct (handle_GET_quiet P (configure P env) (S fuel) request log log' res Hm Hrun)
      as [Hv Hs]. lia.
  - apply String.eqb_neq in Hm.
    assert (Hserve : forall l,
      (verifyCalls l <= S (verifyCalls log))%nat ->
      (statusCalls l <= S (statusCalls log))%nat ->
      serve_origin P (configure P env) request l = (res, log') ->
      (verifyCalls log' <= S (verifyCalls log))%nat
      /\ (statusCalls log' <= S (statusCalls log))%nat).
    { intros l Hv Hs H. apply serve_origin_calls in H. destruct H as (Hv' & Hs' & _). lia. }
    destruct (handle_non_GET P (configure P env) (S fuel) request log Hm)
      as [[_ Heq] | (tok & _ & _ & Heq)]; rewrite Heq in Hrun; clear Heq.
    + destruct (tokenEnforcement (configure P env)).
      * inversion Hrun; subst. lia.
      * apply (Hserve log); [lia | lia | exact Hrun].
    + rewrite verifyArkoseToken_step, Hzero in Hrun; cbv zeta in Hrun.
      change (0 =? 0) with true in Hrun.
      assert (Hafter : forall vs l,
        (verifyCalls l <= S (verifyCalls log))%nat ->
        (statusCalls l <= S (statusCalls log))%nat ->
        (if verified vs then serve_origin P (configure P env) request l
         else if negb (arkoseStatus vs) && failOpen (configure P env)
              then serve_origin P (configure P env) request l
              else if tokenEnforcement (configure P env)
                   then (Ret (Redirect (errorUrl (configure P env)) 301), l)
                   else serve_origin P (configure P env) request l) = (res, log') ->
        (verifyCalls log' <= S (verifyCalls log))%nat
        /\ (statusCalls log' <= S (statusCalls log))%nat).
      { intros vs l Hv Hs H.
        destruct (verified vs); [exact (Hserve l Hv Hs H) | ].
        destruct (negb (arkoseStatus vs) && failOpen (configure P env));
          [exact (Hserve l Hv Hs H) | ].
        destruct (tokenEnforcement (configure P env)); [ | exact (Hserve l Hv Hs H)].
        inversion H; subst. split; assumption. }
      destruct (attempt (verify_endpoint P (verifyCalls log))).
      * match type of Hrun with
        | (if verified ?vs then serve_origin _ _ _ ?l else _) = _ =>
            refine (Hafter vs l _ _ Hrun)
        end;
          [rewrite verifyCalls_posted; lia | rewrite statusCalls_VerifyPOST; lia].
      * destruct (reports_healthy (status_endpoint P (statusCalls log)));
          match type of Hrun with
          | (if verified ?vs then serve_origin _ _ _ ?l else _) = _ =>
              refine (Hafter vs l _ _ Hrun)
          end;
          [ rewrite verifyCalls_checked, verifyCalls_posted; lia
          | rewrite statusCalls_checked, statusCalls_VerifyPOST; lia
          | rewrite verifyCalls_checked, verifyCalls_posted; lia
          | rewrite statusCalls_checked, statusCalls_VerifyPOST; lia ].
Qed.

Lemma zero_ceiling_never_retries_witness :
  (verifyCalls
     [StatusGET status_url;
      VerifyPOST (verify_url "verify-api") "22222222-2222-2222-2222-222222222222"
        (JS.Str "abc.123")]
   <= S (verifyCalls []))%nat
  /\ (statusCalls
        [StatusGET status_url;
         VerifyPOST (verify_url "verify-api") "22222222-2222-2222-2222-222222222222"
           (JS.Str "abc.123")]
      <= S (statusCalls []))%nat.
Proof.
  apply (zero_ceiling_never_retries Sample.verify_down 0
           (Sample.post_login (Some "arkoseToken=abc.123"))
           (Sample.env "false" "true" "false" "many") []
           [StatusGET status_url;
            VerifyPOST (verify_url "verify-api") "22222222-2222-2222-2222-222222222222"
              (JS.Str "abc.123")]
           (Ret (Redirect "https://example.com/error" 301))).
  - reflexivity.
  - reflexivity.
Defined.
